(** * Multi_Tier_GitOps API: request pipeline

    A shallow embedding of the Go API server (CORS middleware, JSON response
    helpers, task model, validation, repository, service and HTTP handlers)
    together with the properties of its natural-language specification. *)

From Stdlib Require Import ZArith String Ascii List Bool Lia DecimalString.
From Stdlib Require DecimalPos.
From stdpp Require Import base option list gmap strings sorting.

Local Open Scope string_scope.
Local Open Scope Z_scope.
Local Set Warnings "-register-all".

(** ** Go standard library: [strings] and [strconv] *)

Module GoStrings.

(** [strings.HasPrefix(s, prefix)]:
    [len(s) >= len(prefix) && s[:len(prefix)] == prefix]. *)
Definition HasPrefix (s prefix : string) : bool :=
  (String.length prefix <=? String.length s)%nat
  && String.eqb (String.substring 0 (String.length prefix) s) prefix.

(** [strings.HasSuffix(s, suffix)]:
    [len(s) >= len(suffix) && s[len(s)-len(suffix):] == suffix]. *)
Definition HasSuffix (s suffix : string) : bool :=
  (String.length suffix <=? String.length s)%nat
  && String.eqb
       (String.substring (String.length s - String.length suffix)
                         (String.length suffix) s)
       suffix.

(** [strings.TrimPrefix(s, prefix)]: [s] without the leading [prefix], or
    [s] itself when it does not start with [prefix]. *)
Definition TrimPrefix (s prefix : string) : string :=
  if HasPrefix s prefix
  then String.substring (String.length prefix)
                        (String.length s - String.length prefix) s
  else s.

(** [strings.Join(elems, sep)]. *)
Fixpoint Join (elems : list string) (sep : string) : string :=
  match elems with
  | [] => ""
  | [e] => e
  | e :: rest => e ++ sep ++ Join rest sep
  end.

(** [strings.Split(s, sep)] for a separator of one byte: the pieces
    between the separators, in order; one piece more than there are
    separators. *)
Fixpoint Split (s : string) (sep : ascii) : list string :=
  match s with
  | "" => [""]
  | String c rest =>
      if Ascii.eqb c sep then "" :: Split rest sep
      else match Split rest sep with
           | piece :: pieces => String c piece :: pieces
           | [] => [String c ""]
           end
  end.

(** Number of bytes of the white-space rune a byte sequence starts with, 0
    when it starts with none.  White space is what [unicode.IsSpace]
    accepts: tab, line feed, vertical tab, form feed, carriage return,
    space, U+0085, U+00A0, U+1680, U+2000 to U+200A, U+2028, U+2029, U+202F,
    U+205F and U+3000, in their UTF-8 encoding. *)
Definition space_width (bs : list N) : nat :=
  match bs with
  | 9%N :: _ | 10%N :: _ | 11%N :: _ | 12%N :: _ | 13%N :: _ | 32%N :: _ => 1%nat
  | 194%N :: 133%N :: _ | 194%N :: 160%N :: _ => 2%nat
  | 225%N :: 154%N :: 128%N :: _ => 3%nat
  | 226%N :: 128%N :: c :: _ =>
      if ((128 <=? c) && (c <=? 138) || (c =? 168) || (c =? 169) || (c =? 175))%N
      then 3%nat else 0%nat
  | 226%N :: 129%N :: 159%N :: _ => 3%nat
  | 227%N :: 128%N :: 128%N :: _ => 3%nat
  | _ => 0%nat
  end.

(** The same for a byte sequence read from its end: [bs] is reversed. *)
Definition space_width_back (bs : list N) : nat :=
  match bs with
  | 9%N :: _ | 10%N :: _ | 11%N :: _ | 12%N :: _ | 13%N :: _ | 32%N :: _ => 1%nat
  | 133%N :: 194%N :: _ | 160%N :: 194%N :: _ => 2%nat
  | 128%N :: 154%N :: 225%N :: _ => 3%nat
  | 159%N :: 129%N :: 226%N :: _ => 3%nat
  | 128%N :: 128%N :: 227%N :: _ => 3%nat
  | c :: 128%N :: 226%N :: _ =>
      if ((128 <=? c) && (c <=? 138) || (c =? 168) || (c =? 169) || (c =? 175))%N
      then 3%nat else 0%nat
  | _ => 0%nat
  end.

(** Drops white-space runes from the front, at most [fuel] of them. *)
Fixpoint trim_front (width : list N → nat) (fuel : nat) (bs : list N) : list N :=
  match fuel with
  | O => bs
  | S fuel' =>
      match width bs with
      | O => bs
      | k => trim_front width fuel' (drop k bs)
      end
  end.

Definition string_bytes (s : string) : list N :=
  map N_of_ascii (list_ascii_of_string s).

Definition bytes_string (bs : list N) : string :=
  string_of_list_ascii (map ascii_of_N bs).

(** [strings.TrimSpace(s)]: [s] without its leading and trailing white
    space.  A rune decoded at the front or at the back of [s] is white space
    exactly when the bytes there are the encoding of a white-space rune, so
    trimming removes those encodings, first from the front, then from the
    back. *)
Definition TrimSpace (s : string) : string :=
  let bs := string_bytes s in
  let front := trim_front space_width (length bs) bs in
  bytes_string
    (rev (trim_front space_width_back (length front) (rev front))).

End GoStrings.

Module Strconv.

(** [strconv.Itoa(i)]: the decimal text of an [int]. *)
Definition Itoa (i : Z) : string := NilZero.string_of_int (Z.to_int i).

(** [strconv.Atoi(s)] with a 64-bit [int]: an optional sign, then one or
    more decimal digits, and a value that fits; [None] for an error. *)
Definition Atoi (s : string) : option Z :=
  let '(neg, digits) :=
    match s with
    | String "-" rest => (true, rest)
    | String "+" rest => (false, rest)
    | _ => (false, s)
    end in
  match NilZero.uint_of_string digits with
  | None => None
  | Some u =>
      let n := if neg then - Z.of_uint u else Z.of_uint u in
      if (- 2 ^ 63 <=? n) && (n <? 2 ^ 63) then Some n else None
  end.

(** [strconv.ParseBool(str)] *)
Definition ParseBool (str : string) : option bool :=
  if String.eqb str "1" || String.eqb str "t" || String.eqb str "T"
     || String.eqb str "TRUE" || String.eqb str "true" || String.eqb str "True"
  then Some true
  else if String.eqb str "0" || String.eqb str "f" || String.eqb str "F"
          || String.eqb str "FALSE" || String.eqb str "false" || String.eqb str "False"
  then Some false
  else None.

End Strconv.

(** ** The world outside the process

    Everything the server reaches through [database/sql] and the clock.
    Statements sent to PostgreSQL are recorded in a log, and the driver's
    reply to each statement is read from a script, so that an operation is a
    function of the world it starts in. *)

(** [time.Time], as a count of clock ticks. *)
Definition Time := Z.

(** One row of the [tasks] table (schema: title VARCHAR(255) NOT NULL,
    description TEXT, status VARCHAR(50) NOT NULL DEFAULT 'pending',
    created_at and updated_at TIMESTAMPTZ DEFAULT NOW()); the primary key
    [id] is the key under which the row is stored. *)
Record Row := {
  row_title : string;
  row_description : string;
  row_status : string;
  row_created_at : Time;
  row_updated_at : Time
}.

(** The statements the repository and the health handler send, with the
    values bound to their placeholders. *)
Inductive Stmt :=
| InsertTask (title description status : string)
| SelectTaskByID (id : string)
| UpdateTask (title description status : string) (updated_at : Time) (id : string)
| DeleteTask (id : string)
| Ping.

(** What the driver does with one statement.  [Fail] stands for every
    failure that is not "no row": lost connection, expired context, a
    malformed UUID, a violated constraint.  [NoCount] executes the statement
    but [Result.RowsAffected] then reports an error. *)
Inductive Reply :=
| Proceed
| Fail (msg : string)
| NoCount (msg : string).

(** [sql.DBStats], as far as the health handler reads it; [WaitDuration] is
    kept in the text form that [Duration.String] gives. *)
Record DBStats := {
  OpenConnections : Z;
  InUse : Z;
  Idle : Z;
  MaxOpenConnections : Z;
  WaitCount : Z;
  WaitDuration : string
}.

Record World := {
  tasks : gmap string Row;        (* the tasks table *)
  script : list Reply;            (* replies of the driver, next first;
                                     exhausted means [Proceed] *)
  log : list Stmt;                (* statements sent so far, oldest first *)
  gen_random_uuid : nat -> string;(* ids the database will draw *)
  drawn : nat;                    (* how many ids were drawn *)
  pg_now : Time;                  (* NOW() of the database *)
  clock : Time;                   (* time.Now() of the server *)
  stats : DBStats                 (* db.Stats() *)
}.

(** Computations that read and change the world. *)
Definition IO (A : Type) : Type := World -> A * World.

Definition ret {A} (a : A) : IO A := fun w => (a, w).

Definition bind {A B} (k : A -> IO B) (m : IO A) : IO B :=
  fun w => let (a, w') := m w in k a w'.

(** [x ← m; k] runs [m], then [k] on its result. *)
#[export] Instance IO_ret : MRet IO := @ret.
#[export] Instance IO_bind : MBind IO := @bind.

(** ** [net/http] *)

Module Http.

Definition StatusOK : Z := 200.
Definition StatusCreated : Z := 201.
Definition StatusNoContent : Z := 204.
Definition StatusBadRequest : Z := 400.
Definition StatusNotFound : Z := 404.
Definition StatusInternalServerError : Z := 500.
Definition StatusServiceUnavailable : Z := 503.

Definition MethodOptions : string := "OPTIONS".

(** [http.Header]: header name to list of values.  Every name the
    program uses is a literal in canonical form. *)
Abbreviation Header := (gmap string (list string)).

(** [h.Get(key)]: the first value for [key], or the empty string. *)
Definition Get (h : Header) (key : string) : string :=
  match h !! key with
  | Some (v :: _) => v
  | _ => ""
  end.

(** [h.Set(key, value)]: replaces whatever values [key] had. *)
Definition Set_ (h : Header) (key value : string) : Header :=
  <[key := [value]]> h.

End Http.

(** ** JSON values written to a response body

    [json.NewEncoder(w).Encode(v)] is modelled up to the concrete syntax: an
    encoded value is the tree the JSON text denotes; a [time.Time] is a leaf. *)
Inductive json :=
| JNull
| JNumber (n : Z)
| JString (s : string)
| JTime (t : Time)
| JArray (items : list json)
| JObject (fields : list (string * json)).

(** The text of [{"error": msg}]. *)
Definition error_object (msg : string) : json := JObject [("error", JString msg)].

Module Model.

(** [model.Task] *)
Record Task := {
  ID : string;
  Title : string;
  Description : string;
  Status : string;
  CreatedAt : Time;
  UpdatedAt : Time
}.

(** [model.CreateTaskRequest], tags
    [validate:"required,min=1,max=255"] and [validate:"max=1000"]. *)
Record CreateTaskRequest := {
  create_Title : string;
  create_Description : string
}.

(** [model.UpdateTaskRequest]: three [*string] fields, [None] for nil. *)
Record UpdateTaskRequest := {
  update_Title : option string;
  update_Description : option string;
  update_Status : option string
}.

(** [model.TaskResponse] *)
Record TaskResponse := {
  resp_ID : string;
  resp_Title : string;
  resp_Description : string;
  resp_Status : string;
  resp_CreatedAt : Time;
  resp_UpdatedAt : Time
}.

(** The method [ToResponse] of [Task]. *)
Definition ToResponse (t : Task) : TaskResponse :=
  {| resp_ID := ID t;
     resp_Title := Title t;
     resp_Description := Description t;
     resp_Status := Status t;
     resp_CreatedAt := CreatedAt t;
     resp_UpdatedAt := UpdatedAt t |}.

(** JSON form of a [TaskResponse], by its [json] struct tags. *)
Definition TaskResponse_json (t : TaskResponse) : json :=
  JObject [("id", JString (resp_ID t));
           ("title", JString (resp_Title t));
           ("description", JString (resp_Description t));
           ("status", JString (resp_Status t));
           ("created_at", JTime (resp_CreatedAt t));
           ("updated_at", JTime (resp_UpdatedAt t))].

End Model.

(** ** Requests and response writers *)

(** The outcome of [json.NewDecoder(r.Body).Decode(&req)] on the body of a
    request, for each of the two target types; [None] when [Decode] returns
    an error.  The decoder is the standard library's. *)
Record Body := {
  asCreateTaskRequest : option Model.CreateTaskRequest;
  asUpdateTaskRequest : option Model.UpdateTaskRequest
}.

(** [*http.Request]; [URLParam_id] is [chi.URLParam(r, "id")]. *)
Record Request := {
  Method : string;
  req_Header : Http.Header;
  URLParam_id : string;
  req_Body : Body
}.

(** [http.ResponseWriter].  [header] is the map [w.Header()] returns;
    [sent] is the status line and the headers as the first [WriteHeader]
    put them on the wire; [body] holds the values encoded after it. *)
Record ResponseWriter := {
  header : Http.Header;
  sent : option (Z * Http.Header);
  body : list json
}.

Definition Header_Set (w : ResponseWriter) (key value : string) : ResponseWriter :=
  {| header := Http.Set_ (header w) key value; sent := sent w; body := body w |}.

(** [w.WriteHeader(code)]: only the first call has an effect. *)
Definition WriteHeader (w : ResponseWriter) (code : Z) : ResponseWriter :=
  match sent w with
  | Some _ => w
  | None => {| header := header w; sent := Some (code, header w); body := body w |}
  end.

(** [json.NewEncoder(w).Encode(v)]: a write, which sends status 200 first
    when no status was sent. *)
Definition Encode (w : ResponseWriter) (v : json) : ResponseWriter :=
  let w1 := WriteHeader w Http.StatusOK in
  {| header := header w1; sent := sent w1; body := body w1 ++ [v] |}.

(** A response writer nothing was written to. *)
Definition NewRecorder : ResponseWriter :=
  {| header := ∅; sent := None; body := [] |}.

(** [http.Handler]: [ServeHTTP(w, r)]. *)
Definition Handler : Type := ResponseWriter -> Request -> IO ResponseWriter.

(** ** Configuration *)

Module Config.

(** [config.CORSConfig] *)
Record CORSConfig := {
  AllowedOrigins : list string;
  AllowedMethods : list string;
  AllowedHeaders : list string;
  ExposedHeaders : list string;
  AllowCredentials : bool;
  MaxAge : Z
}.

(** The process environment: variable name to value. *)
Abbreviation Env := (gmap string string).

(** [os.Getenv(key)]: the value, empty when the variable is not set. *)
Definition Getenv (env : Env) (key : string) : string := default "" (env !! key).

(** [getEnv]: by [os.LookupEnv], so a variable that is set to the empty
    string is returned as it is. *)
Definition getEnv (env : Env) (key fallback : string) : string :=
  match env !! key with
  | Some value => value
  | None => fallback
  end.

(** [getEnvAsInt] *)
Definition getEnvAsInt (env : Env) (key : string) (defaultValue : Z) : Z :=
  let value := Getenv env key in
  if negb (String.eqb value "") then
    match Strconv.Atoi value with
    | Some intVal => intVal
    | None => defaultValue
    end
  else defaultValue.

(** [getEnvAsBool] *)
Definition getEnvAsBool (env : Env) (key : string) (defaultValue : bool) : bool :=
  let value := Getenv env key in
  if negb (String.eqb value "") then
    match Strconv.ParseBool value with
    | Some boolVal => boolVal
    | None => defaultValue
    end
  else defaultValue.

(** [getEnvAsSlice] *)
Definition getEnvAsSlice (env : Env) (key : string) (defaultValue : list string)
  : list string :=
  let value := Getenv env key in
  if negb (String.eqb value "") then
    let parts := GoStrings.Split value "," in
    let result :=
      filter (λ trimmed, trimmed ≠ "") (map GoStrings.TrimSpace parts) in
    if (0 <? length result)%nat then result else defaultValue
  else defaultValue.

(** The [CORSConfig] literal of [NewConfig], over the environment as it is
    once [godotenv.Load] has run. *)
Definition NewConfig_CORSConfig (env : Env) : CORSConfig :=
  {| AllowedOrigins := getEnvAsSlice env "CORS_ALLOWED_ORIGINS" ["*"];
     AllowedMethods :=
       getEnvAsSlice env "CORS_ALLOWED_METHODS" ["GET"; "POST"; "PUT"; "DELETE"; "OPTIONS"];
     AllowedHeaders :=
       getEnvAsSlice env "CORS_ALLOWED_HEADERS"
                     ["Accept"; "Authorization"; "Content-Type"; "X-Request-ID"];
     ExposedHeaders := getEnvAsSlice env "CORS_EXPOSED_HEADERS" ["X-Request-ID"];
     AllowCredentials := getEnvAsBool env "CORS_ALLOW_CREDENTIALS" false;
     MaxAge := getEnvAsInt env "CORS_MAX_AGE" 300 |}.

End Config.

(** ** CORS middleware *)

Module Middleware.
Import Config.

(** [isOriginAllowed]: the loop returns at the first entry that is the
    wildcard, equals the origin, or is a [*.domain] pattern whose
    [.domain] ends the origin. *)
Fixpoint isOriginAllowed_loop (origin : string) (allowedOrigins : list string) : bool :=
  match allowedOrigins with
  | [] => false
  | allowed :: rest =>
      if String.eqb allowed "*" then true
      else if String.eqb allowed origin then true
      else if GoStrings.HasPrefix allowed "*."
              && GoStrings.HasSuffix origin (GoStrings.TrimPrefix allowed "*")
           then true
      else isOriginAllowed_loop origin rest
  end.

Definition isOriginAllowed (origin : string) (allowedOrigins : list string) : bool :=
  if String.eqb origin "" then false
  else isOriginAllowed_loop origin allowedOrigins.

(** [containsWildcard] *)
Fixpoint containsWildcard (allowedOrigins : list string) : bool :=
  match allowedOrigins with
  | [] => false
  | origin :: rest =>
      if String.eqb origin "*" then true else containsWildcard rest
  end.

(** Lines 15 to 43 of [CORS]: the headers the middleware sets before it
    looks at the method. *)
Definition setHeaders (cfg : CORSConfig) (w : ResponseWriter) (r : Request) : ResponseWriter :=
  let origin := Http.Get (req_Header r) "Origin" in
  let w :=
    if isOriginAllowed origin (AllowedOrigins cfg)
    then Header_Set w "Access-Control-Allow-Origin" origin
    else if containsWildcard (AllowedOrigins cfg)
    then Header_Set w "Access-Control-Allow-Origin" "*"
    else w in
  let w :=
    if (0 <? length (AllowedMethods cfg))%nat
    then Header_Set w "Access-Control-Allow-Methods"
                    (GoStrings.Join (AllowedMethods cfg) ", ")
    else w in
  let w :=
    if (0 <? length (AllowedHeaders cfg))%nat
    then Header_Set w "Access-Control-Allow-Headers"
                    (GoStrings.Join (AllowedHeaders cfg) ", ")
    else w in
  let w :=
    if (0 <? length (ExposedHeaders cfg))%nat
    then Header_Set w "Access-Control-Expose-Headers"
                    (GoStrings.Join (ExposedHeaders cfg) ", ")
    else w in
  let w :=
    if AllowCredentials cfg
    then Header_Set w "Access-Control-Allow-Credentials" "true"
    else w in
  if 0 <? MaxAge cfg
  then Header_Set w "Access-Control-Max-Age" (Strconv.Itoa (MaxAge cfg))
  else w.

(** [CORS(cfg)(next)] *)
Definition CORS (cfg : CORSConfig) (next : Handler) : Handler :=
  fun w r =>
    let w := setHeaders cfg w r in
    if String.eqb (Method r) Http.MethodOptions
    then ret (WriteHeader w Http.StatusNoContent)
    else next w r.

(** [RequestLogger(log)(next)], on the side of the response.  [reqID] is
    what [middleware.GetReqID(r.Context())] returns: the id chi's RequestID
    middleware put into the context of the request.  The header name
    X-Request-ID is X-Request-Id in canonical form, for [Get] and for [Set].
    The wrapper that [NewWrapResponseWriter] makes passes on to [w] every
    call of [next] and keeps the status and the byte count for the log line;
    that line goes to [log] once [next] has returned and touches neither the
    response nor the storage. *)
Definition RequestLogger (reqID : string) (next : Handler) : Handler :=
  fun w r =>
    let requestID := Http.Get (req_Header r) "X-Request-Id" in
    let requestID := if String.eqb requestID "" then reqID else requestID in
    let ww := Header_Set w "X-Request-Id" requestID in
    next ww r.

End Middleware.

(** ** Response helpers (package [pkg]) *)

Module Pkg.

(** [WriteJSON(w, statusCode, data)] *)
Definition WriteJSON (w : ResponseWriter) (statusCode : Z) (data : json) : ResponseWriter :=
  let w := Header_Set w "Content-Type" "application/json" in
  let w := WriteHeader w statusCode in
  Encode w data.

Definition JSONSuccess (w : ResponseWriter) (data : json) : ResponseWriter :=
  WriteJSON w Http.StatusOK data.

Definition Created (w : ResponseWriter) (data : json) : ResponseWriter :=
  WriteJSON w Http.StatusCreated data.

Definition NoContent (w : ResponseWriter) : ResponseWriter :=
  WriteHeader w Http.StatusNoContent.

(** [ErrorResponse{Error: message}] encodes as [{"error": message}]. *)
Definition BadRequest (w : ResponseWriter) (message : string) : ResponseWriter :=
  WriteJSON w Http.StatusBadRequest (error_object message).

Definition NotFound (w : ResponseWriter) (message : string) : ResponseWriter :=
  WriteJSON w Http.StatusNotFound (error_object message).

Definition InternalError (w : ResponseWriter) (message : string) : ResponseWriter :=
  WriteJSON w Http.StatusInternalServerError (error_object message).

Definition ServiceUnavailable (w : ResponseWriter) (data : json) : ResponseWriter :=
  WriteJSON w Http.StatusServiceUnavailable data.

End Pkg.

(** ** Errors

    Go errors are values compared by identity.  The program makes four
    sentinel values with [errors.New] (one of them is the standard library's
    [sql.ErrNoRows]), wraps errors with [fmt.Errorf] and the [%w] verb, and
    tests them with [errors.Is] and [errors.As]. *)

Inductive sentinel :=
| sql_ErrNoRows
| repository_ErrTaskNotFound
| service_ErrTaskNotFound
| service_ErrValidation.

#[export] Instance sentinel_eq_dec : EqDecision sentinel.
Proof. solve_decision. Defined.

(** [validator.FieldError], as far as the program reads it. *)
Record FieldError := {
  fe_Namespace : string;
  fe_Field : string;
  fe_Tag : string;
  fe_Param : string
}.

Inductive error :=
| Sentinel (s : sentinel)
| DriverError (msg : string)                 (* any error of the driver *)
| ValidationErrors (errs : list FieldError)  (* validator.ValidationErrors *)
| Errorf (text : string) (wrapped : error).  (* fmt.Errorf with one %w *)

(** A value and a nil error, or no value and an error. *)
Inductive result (A : Type) :=
| Ok (a : A)
| Err (e : error).
Arguments Ok {A} a.
Arguments Err {A} e.

(** A Go slice: [None] is the nil slice, [Some l] a slice that is not nil,
    also when [l] is empty. *)
Definition slice (A : Type) : Type := option (list A).

(** [append(s, x)] *)
Definition append_slice {A} (s : slice A) (x : A) : slice A :=
  Some (default [] s ++ [x])%list.

(** The elements a [range] loop visits. *)
Definition elements_of {A} (s : slice A) : list A := default [] s.

(** A slice encodes as a JSON array, the nil slice as [null]. *)
Definition slice_json {A} (f : A → json) (s : slice A) : json :=
  match s with
  | None => JNull
  | Some l => JArray (map f l)
  end.

Definition sentinel_text (s : sentinel) : string :=
  match s with
  | sql_ErrNoRows => "sql: no rows in result set"
  | repository_ErrTaskNotFound => "task not found"
  | service_ErrTaskNotFound => "task not found"
  | service_ErrValidation => "validation error"
  end.

(** [FieldError.Error()] of the validator. *)
Definition FieldError_Error (e : FieldError) : string :=
  "Key: '" +:+ fe_Namespace e +:+ "' Error:Field validation for '"
  +:+ fe_Field e +:+ "' failed on the '" +:+ fe_Tag e +:+ "' tag".

Definition newline : string := String (ascii_of_nat 10) "".

(** [err.Error()] *)
Definition Error (e : error) : string :=
  match e with
  | Sentinel s => sentinel_text s
  | DriverError msg => msg
  | ValidationErrors errs => GoStrings.Join (map FieldError_Error errs) newline
  | Errorf text _ => text
  end.

(** [fmt.Errorf(prefix + "%w", err)] *)
Definition Errorf_w (prefix : string) (err : error) : error :=
  Errorf (prefix +:+ Error err) err.

(** [errors.Is(err, target)] for a sentinel target: walks the chain of
    wrapped errors. *)
Fixpoint errors_Is (err : error) (target : sentinel) : bool :=
  match err with
  | Sentinel s => bool_decide (s = target)
  | Errorf _ wrapped => errors_Is wrapped target
  | DriverError _ | ValidationErrors _ => false
  end.

(** [errors.As(err, &validationErrors)] *)
Fixpoint errors_As_ValidationErrors (err : error) : option (list FieldError) :=
  match err with
  | ValidationErrors errs => Some errs
  | Errorf _ wrapped => errors_As_ValidationErrors wrapped
  | Sentinel _ | DriverError _ => None
  end.

(** ** [unicode/utf8] *)

Module Utf8.

Definition bytes (s : string) : list N :=
  map N_of_ascii (list_ascii_of_string s).

Definition between (lo hi c : N) : bool := ((lo <=? c) && (c <=? hi))%N.

(** Number of bytes of the rune that starts with [c] and goes on in
    [rest]: the table [first] and the accept ranges of the package; an
    invalid or short encoding is one byte wide. *)
Definition rune_width (c : N) (rest : list N) : nat :=
  let '(size, lo, hi) :=
    (if c <? 128 then (1, 0, 0)
     else if c <? 194 then (1, 0, 0)
     else if c <? 224 then (2, 128, 191)
     else if c =? 224 then (3, 160, 191)
     else if c <? 237 then (3, 128, 191)
     else if c =? 237 then (3, 128, 159)
     else if c <? 240 then (3, 128, 191)
     else if c =? 240 then (4, 144, 191)
     else if c <? 244 then (4, 128, 191)
     else if c =? 244 then (4, 128, 143)
     else (1, 0, 0))%N in
  match size, rest with
  | 2%N, c1 :: _ =>
      if between lo hi c1 then 2%nat else 1%nat
  | 3%N, c1 :: c2 :: _ =>
      if between lo hi c1 && between 128 191 c2 then 3%nat else 1%nat
  | 4%N, c1 :: c2 :: c3 :: _ =>
      if between lo hi c1 && between 128 191 c2 && between 128 191 c3
      then 4%nat else 1%nat
  | _, _ => 1%nat
  end.

(** The loop of [RuneCountInString]; [skip] bytes belong to the rune
    counted last. *)
Fixpoint count (skip : nat) (s : list N) : nat :=
  match s with
  | [] => 0%nat
  | c :: rest =>
      match skip with
      | S k => count k rest
      | O => S (count (rune_width c rest - 1) rest)
      end
  end.

(** [utf8.RuneCountInString(s)] *)
Definition RuneCountInString (s : string) : nat := count 0 (bytes s).

End Utf8.

(** ** [go-playground/validator]

    [validate.Struct] walks the fields of a struct in declaration order and
    runs the tags of each field from left to right; the first tag a field
    fails gives that field's [FieldError], and the walk goes on with the
    next field.  Only the tags the request types carry are interpreted. *)

Module Validator.

Inductive Tag :=
| tag_required
| tag_omitempty
| tag_min (param : string)
| tag_max (param : string)
| tag_oneof (param : string).

Definition tag_name (t : Tag) : string :=
  match t with
  | tag_required => "required"
  | tag_omitempty => "omitempty"
  | tag_min _ => "min"
  | tag_max _ => "max"
  | tag_oneof _ => "oneof"
  end.

Definition tag_param (t : Tag) : string :=
  match t with
  | tag_required | tag_omitempty => ""
  | tag_min p | tag_max p | tag_oneof p => p
  end.

(** A field of kind [string] or [*string]. *)
Inductive Value :=
| VString (s : string)
| VPtr (p : option string).

Record StructField := {
  sf_Name : string;
  sf_Value : Value;
  sf_Tags : list Tag
}.

(** A struct type with [validate] tags: its name and, for a value, its
    fields in declaration order. *)
Class Validated (A : Type) := {
  type_name : string;
  fields : A -> list StructField
}.

#[global] Instance CreateTaskRequest_validated : Validated Model.CreateTaskRequest := {|
  type_name := "CreateTaskRequest";
  fields req :=
    [ {| sf_Name := "Title"; sf_Value := VString (Model.create_Title req);
         sf_Tags := [tag_required; tag_min "1"; tag_max "255"] |};
      {| sf_Name := "Description"; sf_Value := VString (Model.create_Description req);
         sf_Tags := [tag_max "1000"] |} ]
|}.

#[global] Instance UpdateTaskRequest_validated : Validated Model.UpdateTaskRequest := {|
  type_name := "UpdateTaskRequest";
  fields req :=
    [ {| sf_Name := "Title"; sf_Value := VPtr (Model.update_Title req);
         sf_Tags := [tag_omitempty; tag_min "1"; tag_max "255"] |};
      {| sf_Name := "Description"; sf_Value := VPtr (Model.update_Description req);
         sf_Tags := [tag_omitempty; tag_max "1000"] |};
      {| sf_Name := "Status"; sf_Value := VPtr (Model.update_Status req);
         sf_Tags := [tag_omitempty; tag_oneof "pending in_progress completed"] |} ]
|}.

(** [asInt(param)] *)
Definition asInt (param : string) : Z :=
  match NilZero.int_of_string param with
  | Some i => Z.of_int i
  | None => 0
  end.

(** [hasValue]: a string reached through a non-nil pointer has a value;
    a plain string has one when it is not empty. *)
Definition hasValue (isPointer : bool) (s : string) : bool :=
  isPointer || negb (String.eqb s "").

(** Does the string [s] satisfy tag [t]? *)
Definition passes (isPointer : bool) (s : string) (t : Tag) : bool :=
  match t with
  | tag_required => hasValue isPointer s
  | tag_omitempty => true
  | tag_min p => asInt p <=? Z.of_nat (Utf8.RuneCountInString s)
  | tag_max p => Z.of_nat (Utf8.RuneCountInString s) <=? asInt p
  | tag_oneof p => bool_decide (s ∈ String.words p)
  end.

(** The first tag the string fails; [omitempty] ends the run for a
    string without value. *)
Fixpoint first_failure (isPointer : bool) (s : string) (tags : list Tag) : option Tag :=
  match tags with
  | [] => None
  | tag_omitempty :: rest =>
      if hasValue isPointer s then first_failure isPointer s rest else None
  | t :: rest =>
      if passes isPointer s t then first_failure isPointer s rest else Some t
  end.

(** One field: a nil pointer is valid when there is no tag or the first
    tag is [omitempty], and fails its first tag otherwise. *)
Definition check_field (f : StructField) : option Tag :=
  match sf_Value f with
  | VString s => first_failure false s (sf_Tags f)
  | VPtr (Some s) => first_failure true s (sf_Tags f)
  | VPtr None =>
      match sf_Tags f with
      | [] => None
      | tag_omitempty :: _ => None
      | t :: _ => Some t
      end
  end.

Definition field_error (ns : string) (f : StructField) : option FieldError :=
  match check_field f with
  | None => None
  | Some t =>
      Some {| fe_Namespace := ns +:+ "." +:+ sf_Name f;
              fe_Field := sf_Name f;
              fe_Tag := tag_name t;
              fe_Param := tag_param t |}
  end.

(** The field errors of a value, in declaration order. *)
Definition violations {A} `{Validated A} (a : A) : list FieldError :=
  omap (field_error type_name) (fields a).

(** [validate.Struct(a)]: nil, or the non-empty [ValidationErrors]. *)
Definition Struct {A} `{Validated A} (a : A) : option error :=
  match violations a with
  | [] => None
  | errs => Some (ValidationErrors errs)
  end.

End Validator.

(** ** [database/sql] against the tasks table *)

Module Database.
Import Model.

Definition ErrNoRows : error := Sentinel sql_ErrNoRows.

(** The columns a statement returns for the row stored under [id].  The
    table is keyed by the text PostgreSQL gives the id column, so the id
    scanned from a row is the key it is stored under. *)
Definition task_of_row (id : string) (row : Row) : Task :=
  {| ID := id;
     Title := row_title row;
     Description := row_description row;
     Status := row_status row;
     CreatedAt := row_created_at row;
     UpdatedAt := row_updated_at row |}.

Definition with_tasks (w : World) (t : gmap string Row) : World :=
  {| tasks := t; script := script w; log := log w;
     gen_random_uuid := gen_random_uuid w; drawn := drawn w;
     pg_now := pg_now w; clock := clock w; stats := stats w |}.

(** Sending a statement: it is logged and the driver's next reply is
    taken from the script. *)
Definition send (s : Stmt) : IO Reply :=
  fun w =>
    (hd Proceed (script w),
     {| tasks := tasks w; script := tl (script w); log := log w ++ [s];
        gen_random_uuid := gen_random_uuid w; drawn := drawn w;
        pg_now := pg_now w; clock := clock w; stats := stats w |}).

(** [INSERT INTO tasks (title, description, status) VALUES ($1, $2, $3)
    RETURNING ...]: the id is drawn by [gen_random_uuid()], both
    timestamps default to [NOW()]; a drawn id that is already a key
    violates the primary key. *)
Definition insert (title description status : string) : IO (result (list Task)) :=
  fun w =>
    let id := gen_random_uuid w (drawn w) in
    let w1 :=
      {| tasks := tasks w; script := script w; log := log w;
         gen_random_uuid := gen_random_uuid w; drawn := S (drawn w);
         pg_now := pg_now w; clock := clock w; stats := stats w |} in
    match tasks w !! id with
    | Some _ => (Err (DriverError "pq: duplicate key value violates unique constraint"), w1)
    | None =>
        let row := {| row_title := title; row_description := description;
                      row_status := status;
                      row_created_at := pg_now w; row_updated_at := pg_now w |} in
        (Ok [task_of_row id row], with_tasks w1 (<[id := row]> (tasks w)))
    end.

(** [SELECT ... FROM tasks WHERE id = $1] *)
Definition select (id : string) : IO (result (list Task)) :=
  fun w =>
    match tasks w !! id with
    | Some row => (Ok [task_of_row id row], w)
    | None => (Ok [], w)
    end.

(** [UPDATE tasks SET title = $1, description = $2, status = $3,
    updated_at = $4 WHERE id = $5 RETURNING ...] *)
Definition update (title description status : string) (updated_at : Time) (id : string)
  : IO (result (list Task)) :=
  fun w =>
    match tasks w !! id with
    | Some old =>
        let row := {| row_title := title; row_description := description;
                      row_status := status;
                      row_created_at := row_created_at old;
                      row_updated_at := updated_at |} in
        (Ok [task_of_row id row], with_tasks w (<[id := row]> (tasks w)))
    | None => (Ok [], w)
    end.

(** [DELETE FROM tasks WHERE id = $1]; the rows it affects. *)
Definition delete_ (id : string) : IO (result (list Task)) :=
  fun w =>
    match tasks w !! id with
    | Some row => (Ok [task_of_row id row], with_tasks w (delete id (tasks w)))
    | None => (Ok [], w)
    end.

(** What a statement does once the driver lets it through: the rows it
    returns or affects. *)
Definition execute (s : Stmt) : IO (result (list Task)) :=
  match s with
  | InsertTask title description status => insert title description status
  | SelectTaskByID id => select id
  | UpdateTask title description status updated_at id =>
      update title description status updated_at id
  | DeleteTask id => delete_ id
  | Ping => mret (Ok [])
  end.

(** [db.QueryRowContext(ctx, query, args...).Scan(...)]: the first row,
    [sql.ErrNoRows] when there is none, or the driver's error. *)
Definition QueryRow (s : Stmt) : IO (result Task) :=
  reply ← send s;
  match reply with
  | Fail msg => mret (Err (DriverError msg))
  | Proceed | NoCount _ =>
      rows ← execute s;
      match rows with
      | Err e => mret (Err e)
      | Ok [] => mret (Err ErrNoRows)
      | Ok (t :: _) => mret (Ok t)
      end
  end.

(** [sql.Result], as far as the program reads it. *)
Record Result := { RowsAffected : result Z }.

(** [db.ExecContext(ctx, query, args...)] *)
Definition Exec (s : Stmt) : IO (result Result) :=
  reply ← send s;
  match reply with
  | Fail msg => mret (Err (DriverError msg))
  | Proceed =>
      rows ← execute s;
      match rows with
      | Err e => mret (Err e)
      | Ok l => mret (Ok {| RowsAffected := Ok (Z.of_nat (length l)) |})
      end
  | NoCount msg =>
      rows ← execute s;
      match rows with
      | Err e => mret (Err e)
      | Ok _ => mret (Ok {| RowsAffected := Err (DriverError msg) |})
      end
  end.

(** [db.PingContext(ctx)] *)
Definition PingContext : IO (option error) :=
  reply ← send Ping;
  match reply with
  | Fail msg => mret (Some (DriverError msg))
  | Proceed | NoCount _ => mret None
  end.

(** [db.Stats()] *)
Definition Stats : IO DBStats := fun w => (stats w, w).

(** [time.Now()] *)
Definition time_Now : IO Time := fun w => (clock w, w).

(** [*sql.Rows] of the listing query, as the loop of [GetAll] drives it:
    for every row [rows.Next()] announces, what [rows.Scan] makes of it, and
    then the error [rows.Err()] reports once [Next] has returned false. *)
Record Rows := {
  scans : list (result Task);
  rows_Err : option error
}.

End Database.

(** ** Repository *)

Module Repository.
Import Model.

Definition ErrTaskNotFound : error := Sentinel repository_ErrTaskNotFound.

(** [TaskRepository.Create] *)
Definition Create (task : Task) : IO (result Task) :=
  r ← Database.QueryRow (InsertTask (Title task) (Description task) "pending");
  match r with
  | Err err => mret (Err (Errorf_w "failed to create task: " err))
  | Ok createdTask => mret (Ok createdTask)
  end.

(** [TaskRepository.GetByID] *)
Definition GetByID (id : string) : IO (result Task) :=
  r ← Database.QueryRow (SelectTaskByID id);
  match r with
  | Err err =>
      if errors_Is err sql_ErrNoRows
      then mret (Err ErrTaskNotFound)
      else mret (Err (Errorf_w "failed to get task: " err))
  | Ok task => mret (Ok task)
  end.

(** The assignments of [Update] between the read and the write. *)
Definition apply_updates (currentTask : Task) (updates : UpdateTaskRequest) : Task :=
  let currentTask :=
    match update_Title updates with
    | Some title =>
        {| ID := ID currentTask; Title := title;
           Description := Description currentTask; Status := Status currentTask;
           CreatedAt := CreatedAt currentTask; UpdatedAt := UpdatedAt currentTask |}
    | None => currentTask
    end in
  let currentTask :=
    match update_Description updates with
    | Some description =>
        {| ID := ID currentTask; Title := Title currentTask;
           Description := description; Status := Status currentTask;
           CreatedAt := CreatedAt currentTask; UpdatedAt := UpdatedAt currentTask |}
    | None => currentTask
    end in
  match update_Status updates with
  | Some status =>
      {| ID := ID currentTask; Title := Title currentTask;
         Description := Description currentTask; Status := status;
         CreatedAt := CreatedAt currentTask; UpdatedAt := UpdatedAt currentTask |}
  | None => currentTask
  end.

(** [TaskRepository.Update] *)
Definition Update (id : string) (updates : UpdateTaskRequest) : IO (result Task) :=
  r ← GetByID id;
  match r with
  | Err err => mret (Err err)
  | Ok currentTask =>
      let currentTask := apply_updates currentTask updates in
      now ← Database.time_Now;
      r ← Database.QueryRow
            (UpdateTask (Title currentTask) (Description currentTask)
                        (Status currentTask) now id);
      match r with
      | Err err => mret (Err (Errorf_w "failed to update task: " err))
      | Ok updatedTask => mret (Ok updatedTask)
      end
  end.

(** [TaskRepository.Delete] *)
Definition Delete (id : string) : IO (option error) :=
  r ← Database.Exec (DeleteTask id);
  match r with
  | Err err => mret (Some (Errorf_w "failed to delete task: " err))
  | Ok res =>
      match Database.RowsAffected res with
      | Err err => mret (Some (Errorf_w "failed to get rows affected: " err))
      | Ok rowsAffected =>
          if rowsAffected =? 0 then mret (Some ErrTaskNotFound) else mret None
      end
  end.

(** The [for rows.Next()] loop of [GetAll]: a row that does not scan ends
    it with an error. *)
Fixpoint GetAll_loop (scans : list (result Task)) (tasks : slice Task)
  : result (slice Task) :=
  match scans with
  | [] => Ok tasks
  | Ok task :: rest => GetAll_loop rest (append_slice tasks task)
  | Err err :: _ => Err (Errorf_w "failed to scan task: " err)
  end.

(** [TaskRepository.GetAll]; [q] is what
    [db.QueryContext(ctx, "SELECT ... FROM tasks ORDER BY created_at DESC")]
    returned. *)
Definition GetAll (q : result Database.Rows) : result (slice Task) :=
  match q with
  | Err err => Err (Errorf_w "failed to get tasks: " err)
  | Ok rows =>
      match GetAll_loop (Database.scans rows) None with
      | Err err => Err err
      | Ok tasks =>
          match Database.rows_Err rows with
          | Some err => Err (Errorf_w "error iterating tasks: " err)
          | None => Ok tasks
          end
      end
  end.

End Repository.

(** ** Task service *)

Module Service.
Import Model.

Definition ErrValidation : error := Sentinel service_ErrValidation.
Definition ErrTaskNotFound : error := Sentinel service_ErrTaskNotFound.

(** The message the [switch] of [formatValidationErrors] builds for one
    field error. *)
Definition message (e : FieldError) : string :=
  if String.eqb (fe_Tag e) "required"
  then fe_Field e +:+ " is required"
  else if String.eqb (fe_Tag e) "min"
  then fe_Field e +:+ " must be at least " +:+ fe_Param e +:+ " characters"
  else if String.eqb (fe_Tag e) "max"
  then fe_Field e +:+ " must be at most " +:+ fe_Param e +:+ " characters"
  else if String.eqb (fe_Tag e) "oneof"
  then fe_Field e +:+ " must be one of: " +:+ fe_Param e
  else fe_Field e +:+ " is invalid".

(** [formatValidationErrors] *)
Definition formatValidationErrors (err : error) : string :=
  match errors_As_ValidationErrors err with
  | Some validationErrors =>
      let messages := map message validationErrors in
      match messages with
      | first :: _ => first
      | [] => Error err
      end
  | None => Error err
  end.

(** [fmt.Errorf("%w: %s", ErrValidation, formatValidationErrors(err))] *)
Definition validation_failure (err : error) : error :=
  Errorf (Error ErrValidation +:+ ": " +:+ formatValidationErrors err) ErrValidation.

(** [TaskService.Create] *)
Definition Create (req : CreateTaskRequest) : IO (result TaskResponse) :=
  match Validator.Struct req with
  | Some err => mret (Err (validation_failure err))
  | None =>
      let task := {| ID := ""; Title := create_Title req;
                     Description := create_Description req; Status := "";
                     CreatedAt := 0; UpdatedAt := 0 |} in
      r ← Repository.Create task;
      match r with
      | Err err => mret (Err (Errorf_w "failed to create task: " err))
      | Ok createdTask => mret (Ok (ToResponse createdTask))
      end
  end.

(** [TaskService.GetByID] *)
Definition GetByID (id : string) : IO (result TaskResponse) :=
  r ← Repository.GetByID id;
  match r with
  | Err err =>
      if errors_Is err repository_ErrTaskNotFound
      then mret (Err ErrTaskNotFound)
      else mret (Err (Errorf_w "failed to get task: " err))
  | Ok task => mret (Ok (ToResponse task))
  end.

(** [TaskService.Update] *)
Definition Update (id : string) (req : UpdateTaskRequest) : IO (result TaskResponse) :=
  match Validator.Struct req with
  | Some err => mret (Err (validation_failure err))
  | None =>
      r ← Repository.Update id req;
      match r with
      | Err err =>
          if errors_Is err repository_ErrTaskNotFound
          then mret (Err ErrTaskNotFound)
          else mret (Err (Errorf_w "failed to update task: " err))
      | Ok updatedTask => mret (Ok (ToResponse updatedTask))
      end
  end.

(** [TaskService.Delete] *)
Definition Delete (id : string) : IO (option error) :=
  e ← Repository.Delete id;
  match e with
  | Some err =>
      if errors_Is err repository_ErrTaskNotFound
      then mret (Some ErrTaskNotFound)
      else mret (Some (Errorf_w "failed to delete task: " err))
  | None => mret None
  end.

(** [TaskService.GetAll]; [q] is the outcome of the repository's query. *)
Definition GetAll (q : result Database.Rows) : result (slice TaskResponse) :=
  match Repository.GetAll q with
  | Err err => Err (Errorf_w "failed to get tasks: " err)
  | Ok tasks =>
      let responses :=
        fold_left (λ responses task, append_slice responses (ToResponse task))
                  (elements_of tasks) None in
      let responses :=
        match responses with
        | None => Some []
        | Some l => Some l
        end in
      Ok responses
  end.

End Service.

(** ** HTTP handlers *)

Module Handler.
Import Model.

(** [TaskHandler.Create], POST /tasks *)
Definition Create : Handler :=
  fun w r =>
    match asCreateTaskRequest (req_Body r) with
    | None => mret (Pkg.BadRequest w "Invalid JSON payload")
    | Some req =>
        res ← Service.Create req;
        match res with
        | Err err =>
            if errors_Is err service_ErrValidation
            then mret (Pkg.BadRequest w (Error err))
            else mret (Pkg.InternalError w "Failed to create task")
        | Ok task => mret (Pkg.Created w (TaskResponse_json task))
        end
    end.

(** [TaskHandler.GetByID], GET /tasks/{id} *)
Definition GetByID : Handler :=
  fun w r =>
    let id := URLParam_id r in
    if String.eqb id "" then mret (Pkg.BadRequest w "Task ID is required")
    else
      res ← Service.GetByID id;
      match res with
      | Err err =>
          if errors_Is err service_ErrTaskNotFound
          then mret (Pkg.NotFound w "Task not found")
          else mret (Pkg.InternalError w "Failed to retrieve task")
      | Ok task => mret (Pkg.JSONSuccess w (TaskResponse_json task))
      end.

(** [TaskHandler.Update], PUT /tasks/{id} *)
Definition Update : Handler :=
  fun w r =>
    let id := URLParam_id r in
    if String.eqb id "" then mret (Pkg.BadRequest w "Task ID is required")
    else
      match asUpdateTaskRequest (req_Body r) with
      | None => mret (Pkg.BadRequest w "Invalid JSON payload")
      | Some req =>
          res ← Service.Update id req;
          match res with
          | Err err =>
              if errors_Is err service_ErrValidation
              then mret (Pkg.BadRequest w (Error err))
              else if errors_Is err service_ErrTaskNotFound
              then mret (Pkg.NotFound w "Task not found")
              else mret (Pkg.InternalError w "Failed to update task")
          | Ok task => mret (Pkg.JSONSuccess w (TaskResponse_json task))
          end
      end.

(** [TaskHandler.Delete], DELETE /tasks/{id} *)
Definition Delete : Handler :=
  fun w r =>
    let id := URLParam_id r in
    if String.eqb id "" then mret (Pkg.BadRequest w "Task ID is required")
    else
      e ← Service.Delete id;
      match e with
      | Some err =>
          if errors_Is err service_ErrTaskNotFound
          then mret (Pkg.NotFound w "Task not found")
          else mret (Pkg.InternalError w "Failed to delete task")
      | None => mret (Pkg.NoContent w)
      end.

(** [ServiceInfo]; [Details] is a [map[string]any]. *)
Record ServiceInfo := {
  si_Status : string;
  si_Message : string;
  si_Details : gmap string json
}.

(** [HealthResponse] *)
Record HealthResponse := {
  hr_Status : string;
  hr_Services : gmap string ServiceInfo
}.

(** A Go map encodes as an object with its keys sorted. *)
Definition map_json {A} (f : A -> json) (m : gmap string A) : json :=
  JObject (merge_sort (λ a b : string * json, String.le a.1 b.1)
                      (prod_map id f <$> map_to_list m)).

(** JSON form of a [ServiceInfo]: [message] and [details] carry
    [omitempty]. *)
Definition ServiceInfo_json (s : ServiceInfo) : json :=
  JObject ([("status", JString (si_Status s))]
           ++ (if String.eqb (si_Message s) "" then []
               else [("message", JString (si_Message s))])
           ++ (if bool_decide (si_Details s = ∅) then []
               else [("details", map_json id (si_Details s))])).

Definition HealthResponse_json (h : HealthResponse) : json :=
  JObject [("status", JString (hr_Status h));
           ("services", map_json ServiceInfo_json (hr_Services h))].

(** [HealthHandler.checkDatabase] *)
Definition checkDatabase : IO ServiceInfo :=
  e ← Database.PingContext;
  match e with
  | Some err =>
      mret {| si_Status := "unhealthy";
              si_Message := "Failed to ping database";
              si_Details := {[ "error" := JString (Error err) ]} |}
  | None =>
      stats ← Database.Stats;
      mret {| si_Status := "healthy";
              si_Message := "Database connection is active";
              si_Details :=
                <[ "open_connections" := JNumber (OpenConnections stats) ]>
                (<[ "in_use" := JNumber (InUse stats) ]>
                (<[ "idle" := JNumber (Idle stats) ]>
                (<[ "max_open" := JNumber (MaxOpenConnections stats) ]>
                (<[ "wait_count" := JNumber (WaitCount stats) ]>
                {[ "wait_duration" := JString (WaitDuration stats) ]})))) |}
  end.

(** [HealthHandler.healthCheckHandler], GET /health *)
Definition healthCheckHandler : Handler :=
  fun w r =>
    let healthResp := {| hr_Status := "healthy"; hr_Services := ∅ |} in
    dbStatus ← checkDatabase;
    let healthResp :=
      {| hr_Status := hr_Status healthResp;
         hr_Services := <[ "database" := dbStatus ]> (hr_Services healthResp) |} in
    if String.eqb (si_Status dbStatus) "unhealthy"
    then
      let healthResp :=
        {| hr_Status := "unhealthy"; hr_Services := hr_Services healthResp |} in
      mret (Pkg.ServiceUnavailable w (JString "Service unhealthy"))
    else mret (Pkg.JSONSuccess w (HealthResponse_json healthResp)).

(** [TaskHandler.GetAll], GET /tasks; [q] is the outcome of the
    repository's query. *)
Definition GetAll (q : result Database.Rows) : Handler :=
  λ w r,
    match Service.GetAll q with
    | Err err => mret (Pkg.InternalError w "Failed to retrieve tasks")
    | Ok tasks => mret (Pkg.JSONSuccess w (slice_json TaskResponse_json tasks))
    end.

End Handler.

(** ** Vocabulary of the specification *)

(** The header names of the CORS protocol. *)
Definition ACAO : string := "Access-Control-Allow-Origin".
Definition ACAM : string := "Access-Control-Allow-Methods".
Definition ACAH : string := "Access-Control-Allow-Headers".
Definition ACEH : string := "Access-Control-Expose-Headers".
Definition ACAC : string := "Access-Control-Allow-Credentials".
Definition ACMA : string := "Access-Control-Max-Age".

(** Some entry of the allow-list matches the origin: it equals the origin,
    it is the literal wildcard, or it has the form [*.suffix] and the origin
    ends with [.suffix]. *)
Definition origin_matches (origin : string) (allowed : list string) : Prop :=
  ∃ entry, entry ∈ allowed ∧
    (entry = origin ∨ entry = "*" ∨
     ∃ suffix pre, entry = "*." +:+ suffix ∧ origin = pre +:+ "." +:+ suffix).

(** [if b { w.Header().Set(key, value) }] on the header map. *)
Definition set_if (b : bool) (key value : string) (h : Http.Header) : Http.Header :=
  if b then Http.Set_ h key value else h.

(** The first step of the middleware on the header map. *)
Definition set_origin (cfg : Config.CORSConfig) (r : Request) (h : Http.Header) : Http.Header :=
  let origin := Http.Get (req_Header r) "Origin" in
  if Middleware.isOriginAllowed origin (Config.AllowedOrigins cfg) then Http.Set_ h ACAO origin
  else if Middleware.containsWildcard (Config.AllowedOrigins cfg) then Http.Set_ h ACAO "*"
  else h.

(** The status a response went out with, if any. *)
Definition status (w : ResponseWriter) : option Z := fst <$> sent w.

(** The value list of a header as it went out. *)
Definition sent_header (w : ResponseWriter) (key : string) : option (list string) :=
  sent w ≫= λ p, p.2 !! key.

(** The first [n] replies of the driver's script let the statement through
    and report its row count. *)
Definition undisturbed (n : nat) (w : World) : Prop :=
  ∀ i, (i < n)%nat → nth i (script w) Proceed = Proceed.

(** The shape [{status, services: {database: {status, message?, details?}}}]
    of the aggregate health payload. *)
Definition service_info_shape (v : json) : Prop :=
  ∃ st rest, v = JObject (("status", JString st) :: rest)
    ∧ ∀ k x, (k, x) ∈ rest → k = "message" ∨ k = "details".

Definition health_payload_shape (v : json) : Prop :=
  ∃ st db, v = JObject [("status", JString st);
                        ("services", JObject [("database", db)])]
    ∧ service_info_shape db.

(** The middleware sets [key] to [value] when [cond] holds and leaves the
    header as it found it otherwise: [h0] is the header map before, [h] the
    one after. *)
Definition emitted_when (cond : Prop) (h0 h : Http.Header) (key value : string) : Prop :=
  (cond → h !! key = Some [value]) ∧ (¬ cond → h !! key = h0 !! key).

(** The world once statement [s] went out: [s] is logged and one reply of
    the script is used up. *)
Definition sent_world (s : Stmt) (w : World) : World := (Database.send s w).2.

(** The reply the driver gives to the [n]-th statement from now. *)
Definition reply_at (n : nat) (w : World) : Reply := nth n (script w) Proceed.

(** How the storage answers an operation on one task: the row is there,
    there is no row, or the storage fails otherwise. *)
Inductive outcome :=
| Found (row : Row)
| NoRow
| StorageFailure.

(** Outcome of the read [SELECT ... WHERE id = $1]. *)
Definition read_outcome (id : string) (w : World) : outcome :=
  match reply_at 0 w with
  | Fail _ => StorageFailure
  | Proceed | NoCount _ =>
      match tasks w !! id with
      | Some row => Found row
      | None => NoRow
      end
  end.

(** Outcome of an update: its read, then its write. *)
Definition update_outcome (id : string) (w : World) : outcome :=
  match read_outcome id w with
  | Found row =>
      match reply_at 1 w with
      | Fail _ => StorageFailure
      | Proceed | NoCount _ => Found row
      end
  | o => o
  end.

(** Outcome of [DELETE ... WHERE id = $1]: zero rows affected is the
    no-row condition. *)
Definition delete_outcome (id : string) (w : World) : outcome :=
  match reply_at 0 w with
  | Fail _ | NoCount _ => StorageFailure
  | Proceed =>
      match tasks w !! id with
      | Some row => Found row
      | None => NoRow
      end
  end.

(** The handler answered on the fresh writer [w0] with status [code] and
    the one JSON value [v] as body. *)
Definition responds (w0 w : ResponseWriter) (code : Z) (v : json) : Prop :=
  status w = Some code ∧ body w = (body w0 ++ [v])%list.

(** The row an update request makes of a stored row at time [now]. *)
Definition merged_row (row : Row) (req : Model.UpdateTaskRequest) (now : Time) : Row :=
  {| row_title := default (row_title row) (Model.update_Title req);
     row_description := default (row_description row) (Model.update_Description req);
     row_status := default (row_status row) (Model.update_Status req);
     row_created_at := row_created_at row;
     row_updated_at := now |}.

(** The reason part of a validation message, by the kind of constraint. *)
Inductive reason_of (e : FieldError) : string → Prop :=
| reason_required :
    fe_Tag e = "required" → reason_of e "is required"
| reason_min :
    fe_Tag e = "min" →
    reason_of e ("must be at least " +:+ fe_Param e +:+ " characters")
| reason_max :
    fe_Tag e = "max" →
    reason_of e ("must be at most " +:+ fe_Param e +:+ " characters")
| reason_oneof :
    fe_Tag e = "oneof" → reason_of e ("must be one of: " +:+ fe_Param e)
| reason_invalid :
    fe_Tag e ≠ "required" → fe_Tag e ≠ "min" → fe_Tag e ≠ "max" →
    fe_Tag e ≠ "oneof" → reason_of e "is invalid".

(** How an operation on one task must classify the storage outcome [o]:
    only the no-row condition becomes the service's [ErrTaskNotFound] and a
    404 with body [{"error": "Task not found"}]; any other storage failure
    becomes an error that is neither [ErrTaskNotFound] nor [ErrValidation]
    and a 500 whose body is the fixed text [generic]; a row that is there
    gives a value and the status [ok_status]. *)
Definition classified {A} (o : outcome) (res : result A) (w0 w : ResponseWriter)
    (generic : string) (ok_status : Z) : Prop :=
  match o with
  | NoRow =>
      res = Err Service.ErrTaskNotFound
      ∧ responds w0 w Http.StatusNotFound (error_object "Task not found")
  | StorageFailure =>
      (∃ e, res = Err e
            ∧ errors_Is e service_ErrTaskNotFound = false
            ∧ errors_Is e service_ErrValidation = false)
      ∧ responds w0 w Http.StatusInternalServerError (error_object generic)
  | Found _ =>
      (∃ a, res = Ok a) ∧ status w = Some ok_status
  end.

(** A Go [error] result read as a [result] without value. *)
Definition as_result (e : option error) : result unit :=
  match e with
  | Some err => Err err
  | None => Ok tt
  end.

(** ** Sample inputs *)

(** A task that is stored, and a world that holds it. *)
Definition milk_row : Row :=
  {| row_title := "Buy milk"; row_description := "two litres";
     row_status := "pending"; row_created_at := 1000; row_updated_at := 1000 |}.

Definition milk_world : World :=
  {| tasks := {[ "task-0" := milk_row ]}; script := []; log := [];
     gen_random_uuid := λ n, "task-" +:+ Strconv.Itoa (Z.of_nat n);
     drawn := 1; pg_now := 1500; clock := 2000;
     stats := {| OpenConnections := 1; InUse := 0; Idle := 1;
                 MaxOpenConnections := 25; WaitCount := 0; WaitDuration := "0s" |} |}.

(** PUT /tasks/{id} with body [{"status": "completed"}]. *)
Definition complete_request : Model.UpdateTaskRequest :=
  {| Model.update_Title := None; Model.update_Description := None;
     Model.update_Status := Some "completed" |}.

(** DELETE /tasks/missing *)
Definition delete_missing_request : Request :=
  {| Method := "DELETE"; req_Header := ∅; URLParam_id := "missing";
     req_Body := {| asCreateTaskRequest := None;
                    asUpdateTaskRequest := Some complete_request |} |}.

(** The CORS settings [config.NewConfig] falls back on. *)
Definition default_cors : Config.CORSConfig :=
  {| Config.AllowedOrigins := ["*"];
     Config.AllowedMethods := ["GET"; "POST"; "PUT"; "DELETE"; "OPTIONS"];
     Config.AllowedHeaders := ["Accept"; "Authorization"; "Content-Type"; "X-Request-ID"];
     Config.ExposedHeaders := ["X-Request-ID"];
     Config.AllowCredentials := false;
     Config.MaxAge := 300 |}.

(** Settings that admit the subdomains of example.com only. *)
Definition example_cors : Config.CORSConfig :=
  {| Config.AllowedOrigins := ["*.example.com"];
     Config.AllowedMethods := ["GET"; "POST"];
     Config.AllowedHeaders := [];
     Config.ExposedHeaders := ["X-Request-ID"];
     Config.AllowCredentials := true;
     Config.MaxAge := 300 |}.

Definition no_body : Body :=
  {| asCreateTaskRequest := None; asUpdateTaskRequest := None |}.

(** A preflight request from https://app.example.com. *)
Definition preflight_request : Request :=
  {| Method := "OPTIONS";
     req_Header := {[ "Origin" := ["https://app.example.com"] ]};
     URLParam_id := "";
     req_Body := no_body |}.

(** GET /tasks from an origin the example settings do not admit. *)
Definition foreign_request : Request :=
  {| Method := "GET";
     req_Header := {[ "Origin" := ["https://elsewhere.test"] ]};
     URLParam_id := "";
     req_Body := no_body |}.

(** GET /health with no Origin header. *)
Definition health_request : Request :=
  {| Method := "GET"; req_Header := ∅; URLParam_id := ""; req_Body := no_body |}.

(** An empty database that answers every statement. *)
Definition empty_world : World :=
  {| tasks := ∅; script := []; log := [];
     gen_random_uuid := λ n, "task-" +:+ Strconv.Itoa (Z.of_nat n);
     drawn := 0; pg_now := 1000; clock := 2000;
     stats := {| OpenConnections := 1; InUse := 0; Idle := 1;
                 MaxOpenConnections := 25; WaitCount := 0; WaitDuration := "0s" |} |}.

(** POST /tasks with body [{"title": "Buy milk"}]. *)
Definition buy_milk : Model.CreateTaskRequest :=
  {| Model.create_Title := "Buy milk"; Model.create_Description := "" |}.

Definition buy_milk_request : Request :=
  {| Method := "POST"; req_Header := ∅; URLParam_id := "";
     req_Body := {| asCreateTaskRequest := Some buy_milk;
                    asUpdateTaskRequest := None |} |}.

(** POST /tasks with an empty title. *)
Definition untitled : Model.CreateTaskRequest :=
  {| Model.create_Title := ""; Model.create_Description := "no title" |}.

(** An update that breaks two constraints: an empty title and a status
    outside the enumeration. *)
Definition bad_update : Model.UpdateTaskRequest :=
  {| Model.update_Title := Some ""; Model.update_Description := None;
     Model.update_Status := Some "done" |}.

(** A world whose database does not answer the next statement. *)
Definition down_world : World :=
  {| tasks := ∅; script := [Fail "dial tcp 127.0.0.1:5432: connection refused"];
     log := [];
     gen_random_uuid := λ n, "task-" +:+ Strconv.Itoa (Z.of_nat n);
     drawn := 0; pg_now := 1000; clock := 2000;
     stats := {| OpenConnections := 0; InUse := 0; Idle := 0;
                 MaxOpenConnections := 25; WaitCount := 0; WaitDuration := "0s" |} |}.

(** ** Further vocabulary *)

(** The handlers [SetupRouter] gives its routes; [q] is the outcome of the
    listing query. *)
Definition endpoints (q : result Database.Rows) : list Handler :=
  [Handler.healthCheckHandler; Handler.Create; Handler.GetAll q;
   Handler.GetByID; Handler.Update; Handler.Delete].

(** A route's handler as [SetupRouter] mounts it: inside [RequestLogger],
    which is inside [CORS].  chi's RequestID, RealIP, Recoverer and Timeout
    come before [CORS]; [reqID] is the id RequestID made for the request. *)
Definition mounted (cfg : Config.CORSConfig) (reqID : string) (h : Handler) : Handler :=
  Middleware.CORS cfg (Middleware.RequestLogger reqID h).

(** The writer [w] was answered once: a status went out with the headers
    [w0] carried, to which at most Content-Type was added. *)
Definition answered (w0 w : ResponseWriter) : Prop :=
  ∃ code h, sent w = Some (code, h)
            ∧ ∀ key, key ≠ "Content-Type" → h !! key = header w0 !! key.

(** GET /tasks/missing from https://app.example.com. *)
Definition get_missing_request : Request :=
  {| Method := "GET";
     req_Header := {[ "Origin" := ["https://app.example.com"] ]};
     URLParam_id := "missing";
     req_Body := {| asCreateTaskRequest := None; asUpdateTaskRequest := None |} |}.

(** A listing query that found no row. *)
Definition no_rows : result Database.Rows :=
  Ok {| Database.scans := []; Database.rows_Err := None |}.

(** The handler [h] refuses the request with 400 and the message [msg],
    and hands the world back as it got it: nothing was sent to the
    storage. *)
Definition refuses (h : Handler) (w0 : ResponseWriter) (r : Request) (world : World)
    (msg : string) : Prop :=
  h w0 r world = (Pkg.BadRequest w0 msg, world)
  ∧ responds w0 (h w0 r world).1 Http.StatusBadRequest (error_object msg).

(** PUT /tasks/ without id and with a body that does not decode. *)
Definition shapeless_request : Request :=
  {| Method := "PUT"; req_Header := ∅; URLParam_id := "";
     req_Body := {| asCreateTaskRequest := None; asUpdateTaskRequest := None |} |}.

(** PUT /tasks/missing with the body of [bad_update]. *)
Definition bad_update_request : Request :=
  {| Method := "PUT"; req_Header := ∅; URLParam_id := "missing";
     req_Body := {| asCreateTaskRequest := Some untitled;
                    asUpdateTaskRequest := Some bad_update |} |}.

(** DELETE /tasks/task-0 *)
Definition delete_milk_request : Request :=
  {| Method := "DELETE"; req_Header := ∅; URLParam_id := "task-0";
     req_Body := {| asCreateTaskRequest := None; asUpdateTaskRequest := None |} |}.

(** The values a status may take. *)
Definition statuses : list string := ["pending"; "in_progress"; "completed"].

(** A row as the data model wants it: a title of 1 to 255 characters, a
    description of at most 1000, a status of the enumeration. *)
Definition valid_row (row : Row) : Prop :=
  row_title row ≠ ""
  ∧ (Utf8.RuneCountInString (row_title row) <= 255)%nat
  ∧ (Utf8.RuneCountInString (row_description row) <= 1000)%nat
  ∧ row_status row ∈ statuses.

Definition valid_table (w : World) : Prop :=
  ∀ id row, tasks w !! id = Some row → valid_row row.

(** The tasks of a result set when every row scans, [None] when some row
    does not. *)
Fixpoint all_scanned (scans : list (result Model.Task)) : option (list Model.Task) :=
  match scans with
  | [] => Some []
  | Ok task :: rest => cons task <$> all_scanned rest
  | Err _ :: _ => None
  end.

(** A listing query that found the stored task "Buy milk" and a second
    one. *)
Definition two_rows : result Database.Rows :=
  Ok {| Database.scans :=
          [Ok (Database.task_of_row "task-1"
                 {| row_title := "Walk dog"; row_description := "";
                    row_status := "in_progress";
                    row_created_at := 1200; row_updated_at := 1300 |});
           Ok (Database.task_of_row "task-0" milk_row)];
        Database.rows_Err := None |}.

(** The byte [c] occurs in [s]. *)
Fixpoint has_byte (c : ascii) (s : string) : bool :=
  match s with
  | "" => false
  | String c' rest => Ascii.eqb c' c || has_byte c rest
  end.

(** An entry of a comma-separated list as it can be read back: not empty,
    without comma, without white space around it. *)
Definition clean_entry (x : string) : Prop :=
  x ≠ "" ∧ has_byte "," x = false ∧ GoStrings.TrimSpace x = x.

(** A value of a list variable without any entry: every piece between its
    commas is empty or white space.  The empty value is one. *)
Definition blank_list (value : string) : Prop :=
  Forall (λ part, GoStrings.TrimSpace part = "") (GoStrings.Split value ",").

(** The spellings [strconv.ParseBool] reads as true. *)
Definition true_spellings : list string := ["1"; "t"; "T"; "TRUE"; "true"; "True"].

(** ** Facts about [strings] *)

Section GoStringsFacts.
Import GoStrings.

Lemma length_append (a b : string) :
  String.length (a +:+ b) = (String.length a + String.length b)%nat.
Proof. induction a as [|c a IH]; simpl; [reflexivity | now rewrite IH]. Qed.

Lemma substring_all (s : string) : String.substring 0 (String.length s) s = s.
Proof. induction s as [|c s IH]; simpl; [reflexivity | now rewrite IH]. Qed.

Lemma substring_split (s : string) (n : nat) :
  (n <= String.length s)%nat →
  s = String.substring 0 n s +:+ String.substring n (String.length s - n) s.
Proof.
  revert n. induction s as [|c s IH]; intros [|n] Hn; simpl in *; try lia.
  - reflexivity.
  - now rewrite substring_all.
  - change (String c s =
            String c (String.substring 0 n s
                      +:+ String.substring n (String.length s - n) s)).
    f_equal. apply IH. lia.
Qed.

Lemma substring_app_head (p r : string) :
  String.substring 0 (String.length p) (p +:+ r) = p.
Proof.
  induction p as [|c p IH]; simpl; [now destruct r | now rewrite IH].
Qed.

Lemma substring_app_tail (p r : string) (m : nat) :
  String.substring (String.length p) m (p +:+ r) = String.substring 0 m r.
Proof. induction p as [|c p IH]; simpl; [reflexivity | exact IH]. Qed.

Lemma HasPrefix_spec (s prefix : string) :
  HasPrefix s prefix = true ↔ ∃ rest, s = prefix +:+ rest.
Proof.
  unfold HasPrefix. rewrite andb_true_iff, Nat.leb_le, String.eqb_eq. split.
  - intros [Hlen Hsub].
    exists (String.substring (String.length prefix)
                             (String.length s - String.length prefix) s).
    rewrite <- Hsub at 1. now apply substring_split.
  - intros [rest ->]. rewrite length_append. split; [lia |].
    apply substring_app_head.
Qed.

Lemma TrimPrefix_app (prefix rest : string) :
  TrimPrefix (prefix +:+ rest) prefix = rest.
Proof.
  unfold TrimPrefix.
  assert (HasPrefix (prefix +:+ rest) prefix = true) as ->
    by (apply HasPrefix_spec; eauto).
  rewrite length_append, substring_app_tail.
  replace (String.length prefix + String.length rest - String.length prefix)%nat
    with (String.length rest) by lia.
  apply substring_all.
Qed.

Lemma HasSuffix_spec (s suffix : string) :
  HasSuffix s suffix = true ↔ ∃ pre, s = pre +:+ suffix.
Proof.
  unfold HasSuffix. rewrite andb_true_iff, Nat.leb_le, String.eqb_eq. split.
  - intros [Hlen Hsub].
    exists (String.substring 0 (String.length s - String.length suffix) s).
    pose proof (substring_split s (String.length s - String.length suffix)) as Hs.
    replace (String.length s - (String.length s - String.length suffix))%nat
      with (String.length suffix) in Hs by lia.
    rewrite Hsub in Hs. apply Hs. lia.
  - intros [pre ->]. rewrite length_append. split; [lia |].
    replace (String.length pre + String.length suffix - String.length suffix)%nat
      with (String.length pre) by lia.
    rewrite substring_app_tail. apply substring_all.
Qed.

End GoStringsFacts.

(** ** The origin decision and the CORS headers *)

Section CORSFacts.
Import Config Middleware.

Lemma containsWildcard_spec (allowed : list string) :
  containsWildcard allowed = true ↔ "*" ∈ allowed.
Proof.
  induction allowed as [|a l IH]; simpl.
  - split; [discriminate | intros H; inversion H].
  - destruct (String.eqb_spec a "*") as [-> | Hne].
    + split; [intros _; left | reflexivity].
    + rewrite IH, elem_of_cons. split; [auto | intros [? | ?]; [congruence | assumption]].
Qed.

(** A [*.domain] entry matches exactly the origins that end with
    [.domain]. *)
Lemma subdomain_pattern_spec (allowed origin : string) :
  GoStrings.HasPrefix allowed "*."
    && GoStrings.HasSuffix origin (GoStrings.TrimPrefix allowed "*") = true
  ↔ ∃ suffix pre, allowed = "*." +:+ suffix ∧ origin = pre +:+ "." +:+ suffix.
Proof.
  rewrite andb_true_iff, HasPrefix_spec. split.
  - intros [[suffix ->] Hs].
    change ("*." +:+ suffix) with ("*" +:+ ("." +:+ suffix)) in Hs.
    rewrite TrimPrefix_app in Hs. apply HasSuffix_spec in Hs as [pre ->].
    eauto.
  - intros (suffix & pre & -> & ->). split; [eauto |].
    change ("*." +:+ suffix) with ("*" +:+ ("." +:+ suffix)).
    rewrite TrimPrefix_app. apply HasSuffix_spec. eauto.
Qed.

Lemma isOriginAllowed_loop_spec (origin : string) (allowed : list string) :
  isOriginAllowed_loop origin allowed = true ↔ origin_matches origin allowed.
Proof.
  unfold origin_matches. induction allowed as [|a l IH]; simpl.
  - split; [discriminate | intros (e & He & _); inversion He].
  - destruct (String.eqb_spec a "*") as [-> | Hstar].
    { split; [| reflexivity]. intros _. exists "*". split; [left | auto]. }
    destruct (String.eqb_spec a origin) as [-> | Horigin].
    { split; [| reflexivity]. intros _. exists origin. split; [left | auto]. }
    destruct (GoStrings.HasPrefix a "*."
              && GoStrings.HasSuffix origin (GoStrings.TrimPrefix a "*")) eqn:Hpat.
    { split; [| reflexivity]. intros _. exists a. split; [left |].
      right; right. now apply subdomain_pattern_spec. }
    rewrite IH. split.
    + intros (e & He & Hm). exists e. split; [now right | exact Hm].
    + intros (e & He & Hm). apply elem_of_cons in He as [-> | He]; [| eauto].
      destruct Hm as [Hm | [Hm | Hm]]; [congruence | congruence |].
      apply subdomain_pattern_spec in Hm. congruence.
Qed.

Lemma isOriginAllowed_spec (origin : string) (allowed : list string) :
  origin ≠ "" →
  isOriginAllowed origin allowed = true ↔ origin_matches origin allowed.
Proof.
  intros Hne. unfold isOriginAllowed.
  destruct (String.eqb_spec origin "") as [? | _]; [contradiction |].
  apply isOriginAllowed_loop_spec.
Qed.

Lemma isOriginAllowed_empty (allowed : list string) :
  isOriginAllowed "" allowed = false.
Proof. reflexivity. Qed.

(** A literal wildcard in the list matches every origin. *)
Lemma wildcard_matches (origin : string) (allowed : list string) :
  "*" ∈ allowed → origin_matches origin allowed.
Proof. intros H. exists "*". auto. Qed.

Lemma lookup_set_if_eq b key value h :
  set_if b key value h !! key = if b then Some [value] else h !! key.
Proof. destruct b; [apply lookup_insert_eq | reflexivity]. Qed.

Lemma lookup_set_if_ne b key key' value h :
  key ≠ key' → set_if b key value h !! key' = h !! key'.
Proof. intros Hne. destruct b; [now apply lookup_insert_ne | reflexivity]. Qed.

Lemma setHeaders_header cfg w r :
  header (setHeaders cfg w r) =
    set_if (0 <? MaxAge cfg) ACMA (Strconv.Itoa (MaxAge cfg))
      (set_if (AllowCredentials cfg) ACAC "true"
         (set_if (0 <? length (ExposedHeaders cfg))%nat ACEH
                 (GoStrings.Join (ExposedHeaders cfg) ", ")
            (set_if (0 <? length (AllowedHeaders cfg))%nat ACAH
                    (GoStrings.Join (AllowedHeaders cfg) ", ")
               (set_if (0 <? length (AllowedMethods cfg))%nat ACAM
                       (GoStrings.Join (AllowedMethods cfg) ", ")
                  (set_origin cfg r (header w)))))).
Proof.
  unfold setHeaders, set_origin, set_if.
  destruct (isOriginAllowed (Http.Get (req_Header r) "Origin") (AllowedOrigins cfg)),
    (containsWildcard (AllowedOrigins cfg)),
    (0 <? length (AllowedMethods cfg))%nat, (0 <? length (AllowedHeaders cfg))%nat,
    (0 <? length (ExposedHeaders cfg))%nat, (AllowCredentials cfg), (0 <? MaxAge cfg);
    reflexivity.
Qed.

Lemma setHeaders_sent cfg w r : sent (setHeaders cfg w r) = sent w.
Proof.
  unfold setHeaders.
  destruct (isOriginAllowed (Http.Get (req_Header r) "Origin") (AllowedOrigins cfg)),
    (containsWildcard (AllowedOrigins cfg)),
    (0 <? length (AllowedMethods cfg))%nat, (0 <? length (AllowedHeaders cfg))%nat,
    (0 <? length (ExposedHeaders cfg))%nat, (AllowCredentials cfg), (0 <? MaxAge cfg);
    reflexivity.
Qed.

Lemma setHeaders_body cfg w r : body (setHeaders cfg w r) = body w.
Proof.
  unfold setHeaders.
  destruct (isOriginAllowed (Http.Get (req_Header r) "Origin") (AllowedOrigins cfg)),
    (containsWildcard (AllowedOrigins cfg)),
    (0 <? length (AllowedMethods cfg))%nat, (0 <? length (AllowedHeaders cfg))%nat,
    (0 <? length (ExposedHeaders cfg))%nat, (AllowCredentials cfg), (0 <? MaxAge cfg);
    reflexivity.
Qed.

Ltac other_key := rewrite lookup_set_if_ne by (vm_compute; discriminate).

Lemma set_origin_other cfg r h key :
  key ≠ ACAO → set_origin cfg r h !! key = h !! key.
Proof.
  intros Hne. unfold set_origin, Http.Set_. cbv zeta.
  destruct (isOriginAllowed _ _); [now apply lookup_insert_ne |].
  destruct (containsWildcard _); [now apply lookup_insert_ne | reflexivity].
Qed.

Lemma setHeaders_ACAO cfg w r :
  header (setHeaders cfg w r) !! ACAO =
    let origin := Http.Get (req_Header r) "Origin" in
    if isOriginAllowed origin (AllowedOrigins cfg) then Some [origin]
    else if containsWildcard (AllowedOrigins cfg) then Some ["*"]
    else header w !! ACAO.
Proof.
  rewrite setHeaders_header. do 5 other_key.
  unfold set_origin, Http.Set_. cbv zeta.
  destruct (isOriginAllowed _ _); [apply lookup_insert_eq |].
  destruct (containsWildcard _); [apply lookup_insert_eq | reflexivity].
Qed.

Lemma setHeaders_ACAM cfg w r :
  header (setHeaders cfg w r) !! ACAM =
    if (0 <? length (AllowedMethods cfg))%nat
    then Some [GoStrings.Join (AllowedMethods cfg) ", "]
    else header w !! ACAM.
Proof.
  rewrite setHeaders_header. do 4 other_key.
  rewrite lookup_set_if_eq, set_origin_other by (vm_compute; discriminate).
  reflexivity.
Qed.

Lemma setHeaders_ACAH cfg w r :
  header (setHeaders cfg w r) !! ACAH =
    if (0 <? length (AllowedHeaders cfg))%nat
    then Some [GoStrings.Join (AllowedHeaders cfg) ", "]
    else header w !! ACAH.
Proof.
  rewrite setHeaders_header. do 3 other_key.
  rewrite lookup_set_if_eq. other_key.
  rewrite set_origin_other by (vm_compute; discriminate). reflexivity.
Qed.

Lemma setHeaders_ACEH cfg w r :
  header (setHeaders cfg w r) !! ACEH =
    if (0 <? length (ExposedHeaders cfg))%nat
    then Some [GoStrings.Join (ExposedHeaders cfg) ", "]
    else header w !! ACEH.
Proof.
  rewrite setHeaders_header. do 2 other_key.
  rewrite lookup_set_if_eq. do 2 other_key.
  rewrite set_origin_other by (vm_compute; discriminate). reflexivity.
Qed.

Lemma setHeaders_ACAC cfg w r :
  header (setHeaders cfg w r) !! ACAC =
    if AllowCredentials cfg then Some ["true"] else header w !! ACAC.
Proof.
  rewrite setHeaders_header. other_key.
  rewrite lookup_set_if_eq. do 3 other_key.
  rewrite set_origin_other by (vm_compute; discriminate). reflexivity.
Qed.

Lemma setHeaders_ACMA cfg w r :
  header (setHeaders cfg w r) !! ACMA =
    if 0 <? MaxAge cfg then Some [Strconv.Itoa (MaxAge cfg)]
    else header w !! ACMA.
Proof.
  rewrite setHeaders_header, lookup_set_if_eq. do 4 other_key.
  rewrite set_origin_other by (vm_compute; discriminate). reflexivity.
Qed.

(** The middleware sets its headers and then either answers the
    preflight itself or hands the writer to the wrapped handler. *)
Lemma CORS_unfold cfg next w r :
  CORS cfg next w r =
    if String.eqb (Method r) "OPTIONS"
    then mret (WriteHeader (setHeaders cfg w r) 204)
    else next (setHeaders cfg w r) r.
Proof. reflexivity. Qed.

End CORSFacts.


(** ** Properties of the CORS middleware *)

Section CORSProperties.
Import Config Middleware.

Lemma nonempty_length {A} (l : list A) : (0 <? length l)%nat = true ↔ l ≠ [].
Proof. destruct l; simpl; split; try discriminate; try congruence; auto. Qed.

Lemma emitted_when_if (b : bool) (cond : Prop) (h0 h : Http.Header) key value :
  (b = true ↔ cond) →
  h !! key = (if b then Some [value] else h0 !! key) →
  emitted_when cond h0 h key value.
Proof.
  intros Hb Hh. unfold emitted_when. rewrite Hh. split; intros Hc.
  - apply Hb in Hc. now rewrite Hc.
  - destruct b; [| reflexivity]. exfalso. apply Hc, Hb. reflexivity.
Qed.

(** The five configured headers, for any request and any writer. *)
Lemma cors_configured_headers cfg w r :
  let h0 := header w in
  let h := header (setHeaders cfg w r) in
  emitted_when (AllowedMethods cfg ≠ []) h0 h ACAM (GoStrings.Join (AllowedMethods cfg) ", ")
  ∧ emitted_when (AllowedHeaders cfg ≠ []) h0 h ACAH (GoStrings.Join (AllowedHeaders cfg) ", ")
  ∧ emitted_when (ExposedHeaders cfg ≠ []) h0 h ACEH (GoStrings.Join (ExposedHeaders cfg) ", ")
  ∧ emitted_when (AllowCredentials cfg = true) h0 h ACAC "true"
  ∧ emitted_when (0 < MaxAge cfg) h0 h ACMA (Strconv.Itoa (MaxAge cfg)).
Proof.
  cbv zeta. repeat split_and.
  - eapply emitted_when_if; [apply nonempty_length | apply setHeaders_ACAM].
  - eapply emitted_when_if; [apply nonempty_length | apply setHeaders_ACAH].
  - eapply emitted_when_if; [apply nonempty_length | apply setHeaders_ACEH].
  - eapply emitted_when_if; [reflexivity | apply setHeaders_ACAC].
  - eapply emitted_when_if; [apply Z.ltb_lt | apply setHeaders_ACMA].
Qed.

(** C1: for a request with a non-empty Origin, the middleware sets
    Access-Control-Allow-Origin to the origin itself when some allow-list
    entry equals the origin, is the literal wildcard, or is a [*.suffix]
    pattern whose [.suffix] ends the origin; to the wildcard when no entry
    matched but the list holds the wildcard; and leaves the header unset
    otherwise.  The writer so prepared is what the wrapped handler receives
    or what the preflight answer sends. *)
Theorem cors_allow_origin_decision cfg (next : Handler) w r :
  let origin := Http.Get (req_Header r) "Origin" in
  let w' := setHeaders cfg w r in
  origin ≠ "" →
  CORS cfg next w r =
    (if String.eqb (Method r) "OPTIONS" then mret (WriteHeader w' 204) else next w' r)
  ∧ (origin_matches origin (AllowedOrigins cfg) →
     header w' !! ACAO = Some [origin])
  ∧ (¬ origin_matches origin (AllowedOrigins cfg) → "*" ∈ AllowedOrigins cfg →
     header w' !! ACAO = Some ["*"])
  ∧ (¬ origin_matches origin (AllowedOrigins cfg) → "*" ∉ AllowedOrigins cfg →
     header w' !! ACAO = header w !! ACAO).
Proof.
  intros origin w' Hne. subst w'. rewrite setHeaders_ACAO. cbv zeta. fold origin.
  pose proof (isOriginAllowed_spec origin (AllowedOrigins cfg) Hne) as Hallowed.
  pose proof (containsWildcard_spec (AllowedOrigins cfg)) as Hwild.
  split; [apply CORS_unfold |].
  destruct (isOriginAllowed origin (AllowedOrigins cfg)).
  - assert (origin_matches origin (AllowedOrigins cfg)) by now apply Hallowed.
    split; [reflexivity |]. split; intros; contradiction.
  - assert (¬ origin_matches origin (AllowedOrigins cfg)) as Hno
      by (intros H; apply Hallowed in H; discriminate).
    split; [intros; contradiction |]. split; intros.
    + exfalso. apply Hno. now apply wildcard_matches.
    + destruct (containsWildcard (AllowedOrigins cfg)); [| reflexivity].
      exfalso. match goal with H : _ ∉ _ |- _ => apply H end. now apply Hwild.
Qed.

(** The subdomain https://app.example.com is echoed for the entry
    [*.example.com]. *)
Lemma cors_allow_origin_decision_witness :
  header (setHeaders example_cors NewRecorder preflight_request) !! ACAO
  = Some ["https://app.example.com"].
Proof.
  destruct (cors_allow_origin_decision example_cors (λ w _, mret w)
              NewRecorder preflight_request) as (_ & Hecho & _).
  - vm_compute. discriminate.
  - apply Hecho. exists "*.example.com". split; [left |].
    right; right. exists "example.com", "https://app". split; reflexivity.
Defined.

(** C2, as the specification states it, fails: a request without Origin
    header against the default allow-list goes out with
    Access-Control-Allow-Origin set to the wildcard. *)
Lemma cors_empty_origin_counterexample :
  Http.Get (req_Header health_request) "Origin" = ""
  ∧ header (setHeaders default_cors NewRecorder health_request) !! ACAO = Some ["*"]
  ∧ sent_header
      (CORS default_cors Handler.healthCheckHandler NewRecorder health_request
            empty_world).1 ACAO = Some ["*"].
Proof. vm_compute. repeat split. Qed.

(** C2, amended: for a request whose Origin is empty the decision function
    denies, and the middleware sets Access-Control-Allow-Origin to the
    wildcard when the allow-list holds the literal wildcard and leaves the
    header unset when it does not. *)
Theorem cors_empty_origin cfg w r :
  Http.Get (req_Header r) "Origin" = "" →
  isOriginAllowed (Http.Get (req_Header r) "Origin") (AllowedOrigins cfg) = false
  ∧ emitted_when ("*" ∈ AllowedOrigins cfg)
                 (header w) (header (setHeaders cfg w r)) ACAO "*".
Proof.
  intros Hempty. rewrite Hempty. split; [reflexivity |].
  eapply emitted_when_if; [apply containsWildcard_spec |].
  rewrite setHeaders_ACAO. cbv zeta. rewrite Hempty. reflexivity.
Qed.

Lemma cors_empty_origin_witness :
  isOriginAllowed (Http.Get (req_Header health_request) "Origin")
                  (AllowedOrigins example_cors) = false
  ∧ emitted_when ("*" ∈ AllowedOrigins example_cors)
                 (header NewRecorder)
                 (header (setHeaders example_cors NewRecorder health_request)) ACAO "*".
Proof. apply (cors_empty_origin example_cors NewRecorder health_request). reflexivity. Defined.

(** C9: a preflight (OPTIONS) request is answered by the middleware
    itself.  The answer carries the decided Access-Control-Allow-Origin and
    the allowed methods, allowed headers, exposed headers, credentials flag
    and max-age, each set only when configured (non-empty list, flag set,
    positive and hence non-zero age); its status is 204, nothing is written
    to the body, and neither the response nor the world depends on the
    wrapped handler, which is never run. *)
Theorem cors_preflight cfg (next : Handler) w r (world : World) :
  let origin := Http.Get (req_Header r) "Origin" in
  let h0 := header w in
  let h := header (setHeaders cfg w r) in
  Method r = "OPTIONS" →
  sent w = None →
  CORS cfg next w r world =
    ({| header := h; sent := Some (Http.StatusNoContent, h); body := body w |}, world)
  ∧ (∀ next' : Handler, CORS cfg next' w r world = CORS cfg next w r world)
  ∧ h !! ACAO = (if isOriginAllowed origin (AllowedOrigins cfg) then Some [origin]
                 else if containsWildcard (AllowedOrigins cfg) then Some ["*"]
                 else h0 !! ACAO)
  ∧ emitted_when (AllowedMethods cfg ≠ []) h0 h ACAM (GoStrings.Join (AllowedMethods cfg) ", ")
  ∧ emitted_when (AllowedHeaders cfg ≠ []) h0 h ACAH (GoStrings.Join (AllowedHeaders cfg) ", ")
  ∧ emitted_when (ExposedHeaders cfg ≠ []) h0 h ACEH (GoStrings.Join (ExposedHeaders cfg) ", ")
  ∧ emitted_when (AllowCredentials cfg = true) h0 h ACAC "true"
  ∧ emitted_when (0 < MaxAge cfg) h0 h ACMA (Strconv.Itoa (MaxAge cfg))
  ∧ (MaxAge cfg = 0 → h !! ACMA = h0 !! ACMA).
Proof.
  intros origin h0 h Hmethod Hsent.
  assert (∀ n : Handler, CORS cfg n w r world =
            ({| header := h; sent := Some (Http.StatusNoContent, h); body := body w |},
             world)) as Hrun.
  { intros n. rewrite CORS_unfold, Hmethod. cbn [String.eqb Ascii.eqb Bool.eqb].
    unfold WriteHeader. rewrite setHeaders_sent, Hsent, setHeaders_body.
    reflexivity. }
  split; [apply Hrun |].
  split; [intros next'; now rewrite !Hrun |].
  split; [apply setHeaders_ACAO |].
  pose proof (cors_configured_headers cfg w r) as (Hm & Hh & He & Hc & Ha).
  repeat (split; [assumption |]).
  intros Hzero. apply Ha. lia.
Qed.

(** The preflight from https://app.example.com is answered with 204 and
    the configured headers, whatever the wrapped handler is. *)
Lemma cors_preflight_witness :
  let w := (CORS example_cors Handler.healthCheckHandler NewRecorder
                 preflight_request empty_world).1 in
  status w = Some 204
  ∧ body w = []
  ∧ sent_header w ACAO = Some ["https://app.example.com"]
  ∧ sent_header w ACAM = Some ["GET, POST"]
  ∧ sent_header w ACAH = None
  ∧ sent_header w ACMA = Some ["300"].
Proof.
  destruct (cors_preflight example_cors Handler.healthCheckHandler NewRecorder
              preflight_request empty_world) as (Hrun & _);
    [reflexivity | reflexivity |].
  cbv zeta. rewrite Hrun. vm_compute. repeat split.
Defined.

(** C10: on every request, whatever its method and whatever the origin
    decision was, the middleware sets Access-Control-Allow-Methods,
    Access-Control-Allow-Headers and Access-Control-Expose-Headers when the
    configured list is not empty, Access-Control-Allow-Credentials to true
    when the flag is set and Access-Control-Max-Age when the configured age
    is positive, before it answers the preflight or runs the wrapped
    handler. *)
Theorem cors_headers_on_every_request cfg (next : Handler) w r :
  let h0 := header w in
  let w' := setHeaders cfg w r in
  CORS cfg next w r =
    (if String.eqb (Method r) "OPTIONS" then mret (WriteHeader w' 204) else next w' r)
  ∧ emitted_when (AllowedMethods cfg ≠ []) h0 (header w') ACAM
                 (GoStrings.Join (AllowedMethods cfg) ", ")
  ∧ emitted_when (AllowedHeaders cfg ≠ []) h0 (header w') ACAH
                 (GoStrings.Join (AllowedHeaders cfg) ", ")
  ∧ emitted_when (ExposedHeaders cfg ≠ []) h0 (header w') ACEH
                 (GoStrings.Join (ExposedHeaders cfg) ", ")
  ∧ emitted_when (AllowCredentials cfg = true) h0 (header w') ACAC "true"
  ∧ emitted_when (0 < MaxAge cfg) h0 (header w') ACMA (Strconv.Itoa (MaxAge cfg)).
Proof.
  cbv zeta. split; [apply CORS_unfold | apply cors_configured_headers].
Qed.

(** A request whose origin is denied still gets the configured headers. *)
Example denied_origin_keeps_configured_headers :
  let h := header (setHeaders example_cors NewRecorder foreign_request) in
  h !! ACAO = None
  ∧ h !! ACAM = Some ["GET, POST"]
  ∧ h !! ACEH = Some ["X-Request-ID"]
  ∧ h !! ACAC = Some ["true"]
  ∧ h !! ACMA = Some ["300"].
Proof. vm_compute. repeat split. Qed.

End CORSProperties.


(** ** Running the storage layer *)

Section StorageFacts.
Import Model.

Ltac run := unfold mbind, IO_bind, bind, mret, IO_ret, ret.

Lemma reply_at_0 w : hd Proceed (script w) = reply_at 0 w.
Proof. unfold reply_at. now destruct (script w). Qed.

Lemma reply_at_sent s n w : reply_at n (sent_world s w) = reply_at (S n) w.
Proof. unfold reply_at, sent_world; simpl. now destruct (script w), n. Qed.

Lemma tasks_sent s w : tasks (sent_world s w) = tasks w.
Proof. reflexivity. Qed.

Lemma log_sent s w : log (sent_world s w) = (log w ++ [s])%list.
Proof. reflexivity. Qed.

Lemma clock_sent s w : clock (sent_world s w) = clock w.
Proof. reflexivity. Qed.

(** The read of one task. *)
Lemma QueryRow_select id w :
  Database.QueryRow (SelectTaskByID id) w =
    (match reply_at 0 w with
     | Fail msg => Err (DriverError msg)
     | Proceed | NoCount _ =>
         match tasks w !! id with
         | Some row => Ok (Database.task_of_row id row)
         | None => Err Database.ErrNoRows
         end
     end, sent_world (SelectTaskByID id) w).
Proof.
  unfold Database.QueryRow, sent_world. run. rewrite <- reply_at_0.
  unfold Database.send at 1. cbn [fst snd].
  destruct (hd Proceed (script w)); cbn [Database.execute Database.select];
    try reflexivity;
    unfold Database.select; cbn [tasks Database.send snd];
    destruct (tasks w !! id); reflexivity.
Qed.

Lemma Repository_GetByID_run id w :
  Repository.GetByID id w =
    (match read_outcome id w with
     | Found row => Ok (Database.task_of_row id row)
     | NoRow => Err Repository.ErrTaskNotFound
     | StorageFailure =>
         Err (Errorf_w "failed to get task: "
                (DriverError (match reply_at 0 w with Fail msg => msg | _ => "" end)))
     end, sent_world (SelectTaskByID id) w).
Proof.
  unfold Repository.GetByID. run. rewrite QueryRow_select. unfold read_outcome.
  destruct (reply_at 0 w); try reflexivity; destruct (tasks w !! id); reflexivity.
Qed.

Lemma Service_GetByID_run id w :
  Service.GetByID id w =
    (match read_outcome id w with
     | Found row => Ok (ToResponse (Database.task_of_row id row))
     | NoRow => Err Service.ErrTaskNotFound
     | StorageFailure =>
         Err (Errorf_w "failed to get task: "
                (Errorf_w "failed to get task: "
                   (DriverError (match reply_at 0 w with Fail msg => msg | _ => "" end))))
     end, sent_world (SelectTaskByID id) w).
Proof.
  unfold Service.GetByID. run. rewrite Repository_GetByID_run.
  destruct (read_outcome id w); reflexivity.
Qed.

Lemma read_outcome_found id w row :
  read_outcome id w = Found row → tasks w !! id = Some row.
Proof.
  unfold read_outcome.
  destruct (reply_at 0 w); try discriminate;
    destruct (tasks w !! id); congruence.
Qed.

(** The write of an update. *)
Lemma QueryRow_update title description st now id w :
  let stmt := UpdateTask title description st now id in
  Database.QueryRow stmt w =
    match reply_at 0 w with
    | Fail msg => (Err (DriverError msg), sent_world stmt w)
    | Proceed | NoCount _ =>
        match tasks w !! id with
        | Some old =>
            let row := {| row_title := title; row_description := description;
                          row_status := st;
                          row_created_at := row_created_at old;
                          row_updated_at := now |} in
            (Ok (Database.task_of_row id row),
             Database.with_tasks (sent_world stmt w) (<[id := row]> (tasks w)))
        | None => (Err Database.ErrNoRows, sent_world stmt w)
        end
    end.
Proof.
  cbv zeta. unfold Database.QueryRow, sent_world. run. rewrite <- reply_at_0.
  unfold Database.send at 1. cbn [fst snd].
  destruct (hd Proceed (script w)); try reflexivity;
    cbn [Database.execute]; unfold Database.update; cbn [tasks Database.send snd];
    destruct (tasks w !! id); reflexivity.
Qed.

(** What [apply_updates] makes of a stored row. *)
Lemma apply_updates_row id row req now :
  let t := Repository.apply_updates (Database.task_of_row id row) req in
  let m := merged_row row req now in
  Title t = row_title m ∧ Description t = row_description m
  ∧ Status t = row_status m ∧ ID t = id ∧ CreatedAt t = row_created_at row.
Proof.
  unfold Repository.apply_updates, merged_row.
  destruct req as [[t|] [d|] [st|]]; cbn; repeat split.
Qed.

Lemma Repository_Update_run id req w :
  Repository.Update id req w =
    match read_outcome id w with
    | Found row =>
        let m := merged_row row req (clock w) in
        let stmt := UpdateTask (row_title m) (row_description m) (row_status m)
                               (clock w) id in
        let w1 := sent_world stmt (sent_world (SelectTaskByID id) w) in
        match reply_at 1 w with
        | Fail msg => (Err (Errorf_w "failed to update task: " (DriverError msg)), w1)
        | Proceed | NoCount _ =>
            (Ok (Database.task_of_row id m),
             Database.with_tasks w1 (<[id := m]> (tasks w)))
        end
    | NoRow => (Err Repository.ErrTaskNotFound, sent_world (SelectTaskByID id) w)
    | StorageFailure =>
        (Err (Errorf_w "failed to get task: "
                (DriverError (match reply_at 0 w with Fail msg => msg | _ => "" end))),
         sent_world (SelectTaskByID id) w)
    end.
Proof.
  unfold Repository.Update. run. rewrite Repository_GetByID_run.
  destruct (read_outcome id w) as [row| |] eqn:Hread; try reflexivity.
  apply read_outcome_found in Hread.
  unfold Database.time_Now. rewrite clock_sent.
  destruct (apply_updates_row id row req (clock w)) as (-> & -> & -> & _).
  cbv zeta. rewrite QueryRow_update. cbv zeta.
  rewrite reply_at_sent, tasks_sent, Hread.
  destruct (reply_at 1 w); reflexivity.
Qed.

Lemma Service_Update_run id req w :
  Validator.Struct req = None →
  Service.Update id req w =
    match Repository.Update id req w with
    | (Ok t, w') => (Ok (ToResponse t), w')
    | (Err e, w') =>
        (if errors_Is e repository_ErrTaskNotFound then Err Service.ErrTaskNotFound
         else Err (Errorf_w "failed to update task: " e), w')
    end.
Proof.
  intros Hvalid. unfold Service.Update. rewrite Hvalid. run.
  destruct (Repository.Update id req w) as [[t|e] w']; [reflexivity |].
  destruct (errors_Is e repository_ErrTaskNotFound); reflexivity.
Qed.

(** The delete statement. *)
Lemma Repository_Delete_run id w :
  let w1 := sent_world (DeleteTask id) w in
  Repository.Delete id w =
    match reply_at 0 w with
    | Fail msg => (Some (Errorf_w "failed to delete task: " (DriverError msg)), w1)
    | Proceed =>
        match tasks w !! id with
        | Some _ => (None, Database.with_tasks w1 (delete id (tasks w)))
        | None => (Some Repository.ErrTaskNotFound, w1)
        end
    | NoCount msg =>
        (Some (Errorf_w "failed to get rows affected: " (DriverError msg)),
         match tasks w !! id with
         | Some _ => Database.with_tasks w1 (delete id (tasks w))
         | None => w1
         end)
    end.
Proof.
  cbv zeta. unfold Repository.Delete, Database.Exec, sent_world. run.
  rewrite <- reply_at_0. unfold Database.send at 1. cbn [fst snd].
  destruct (hd Proceed (script w)); try reflexivity;
    cbn [Database.execute]; unfold Database.delete_; cbn [tasks Database.send snd];
    destruct (tasks w !! id); reflexivity.
Qed.

Lemma Service_Delete_run id w :
  Service.Delete id w =
    match Repository.Delete id w with
    | (Some e, w') =>
        (if errors_Is e repository_ErrTaskNotFound then Some Service.ErrTaskNotFound
         else Some (Errorf_w "failed to delete task: " e), w')
    | (None, w') => (None, w')
    end.
Proof.
  unfold Service.Delete. run.
  destruct (Repository.Delete id w) as [[e|] w']; [| reflexivity].
  destruct (errors_Is e repository_ErrTaskNotFound); reflexivity.
Qed.

End StorageFacts.


(** ** Partial update *)

Section UpdateProperties.
Import Model.

(** C3: an update of an existing task, when the storage answers both
    statements, stores and returns the fetched row with each of title,
    description and status replaced by the request's value where the request
    has one and kept where it has none.  The only statements sent are the
    read and then one UPDATE that carries all three merged values and the
    current time as updated-at; the creation time and every other row are
    untouched. *)
Theorem update_merges_present_fields id req w row :
  tasks w !! id = Some row →
  undisturbed 2 w →
  ∃ w' stored,
    Repository.Update id req w = (Ok (Database.task_of_row id stored), w')
    ∧ (Validator.Struct req = None →
       Service.Update id req w = (Ok (ToResponse (Database.task_of_row id stored)), w'))
    ∧ tasks w' = <[id := stored]> (tasks w)
    ∧ log w' = (log w ++ [SelectTaskByID id;
                          UpdateTask (row_title stored) (row_description stored)
                                     (row_status stored) (clock w) id])%list
    ∧ row_title stored = default (row_title row) (update_Title req)
    ∧ row_description stored = default (row_description row) (update_Description req)
    ∧ row_status stored = default (row_status row) (update_Status req)
    ∧ row_updated_at stored = clock w
    ∧ row_created_at stored = row_created_at row.
Proof.
  intros Hrow Hok.
  assert (reply_at 0 w = Proceed) as H0 by (apply Hok; lia).
  assert (reply_at 1 w = Proceed) as H1 by (apply Hok; lia).
  assert (read_outcome id w = Found row) as Hread
    by (unfold read_outcome; now rewrite H0, Hrow).
  pose proof (Repository_Update_run id req w) as Hrun.
  rewrite Hread, H1 in Hrun. cbv zeta in Hrun.
  eexists _, (merged_row row req (clock w)).
  split; [exact Hrun |].
  split; [intros Hvalid; rewrite Service_Update_run, Hrun by assumption; reflexivity |].
  split; [reflexivity |].
  split; [cbn; now rewrite <- app_assoc |].
  repeat split.
Qed.

(** Completing the stored task "Buy milk" keeps its title and description. *)
Lemma update_merges_present_fields_witness :
  ∃ w' stored,
    Repository.Update "task-0" complete_request milk_world
      = (Ok (Database.task_of_row "task-0" stored), w')
    ∧ (Validator.Struct complete_request = None →
       Service.Update "task-0" complete_request milk_world
         = (Ok (ToResponse (Database.task_of_row "task-0" stored)), w'))
    ∧ tasks w' = <["task-0" := stored]> (tasks milk_world)
    ∧ log w' = (log milk_world
                ++ [SelectTaskByID "task-0";
                    UpdateTask (row_title stored) (row_description stored)
                               (row_status stored) (clock milk_world) "task-0"])%list
    ∧ row_title stored = default (row_title milk_row) (update_Title complete_request)
    ∧ row_description stored
        = default (row_description milk_row) (update_Description complete_request)
    ∧ row_status stored = default (row_status milk_row) (update_Status complete_request)
    ∧ row_updated_at stored = clock milk_world
    ∧ row_created_at stored = row_created_at milk_row.
Proof.
  apply (update_merges_present_fields "task-0" complete_request milk_world milk_row).
  - reflexivity.
  - intros [|[|i]] Hi; [reflexivity | reflexivity | lia].
Defined.

(** An update that fails leaves every row as it was. *)
Lemma update_failure_keeps_rows id req w e w' :
  Repository.Update id req w = (Err e, w') → tasks w' = tasks w.
Proof.
  rewrite Repository_Update_run.
  destruct (read_outcome id w); [| now intros [= _ <-] | now intros [= _ <-]].
  cbv zeta. destruct (reply_at 1 w); intros [= _ <-]; reflexivity.
Qed.

End UpdateProperties.


(** ** Error classification *)

Section ClassificationProperties.
Import Model.

Ltac run := unfold mbind, IO_bind, bind, mret, IO_ret, ret.

(** On a fresh writer [WriteJSON] sends the status and one value. *)
Lemma WriteJSON_responds w0 code v :
  sent w0 = None → responds w0 (Pkg.WriteJSON w0 code v) code v.
Proof.
  intros Hfresh. unfold responds, status, Pkg.WriteJSON, Encode, WriteHeader.
  cbn. rewrite Hfresh. cbn. split; reflexivity.
Qed.

Lemma WriteJSON_status w0 code v :
  sent w0 = None → status (Pkg.WriteJSON w0 code v) = Some code.
Proof. intros Hfresh. now apply WriteJSON_responds. Qed.

Lemma NoContent_status w0 :
  sent w0 = None → status (Pkg.NoContent w0) = Some Http.StatusNoContent.
Proof.
  intros Hfresh. unfold status, Pkg.NoContent, WriteHeader. now rewrite Hfresh.
Qed.

Lemma nonempty_eqb (id : string) : id ≠ "" → String.eqb id "" = false.
Proof. intros H. now apply String.eqb_neq. Qed.

#[local] Opaque Pkg.WriteJSON Pkg.NoContent status.

Lemma get_by_id_classified w0 r world :
  sent w0 = None → URLParam_id r ≠ "" →
  classified (read_outcome (URLParam_id r) world)
             (Service.GetByID (URLParam_id r) world).1
             w0 (Handler.GetByID w0 r world).1
             "Failed to retrieve task" Http.StatusOK.
Proof.
  intros Hfresh Hid. unfold Handler.GetByID. rewrite (nonempty_eqb _ Hid).
  run. rewrite Service_GetByID_run.
  destruct (read_outcome (URLParam_id r) world); cbn.
  - split; [eauto | now apply WriteJSON_status].
  - split; [reflexivity | now apply WriteJSON_responds].
  - split; [eauto | now apply WriteJSON_responds].
Qed.

Lemma update_classified w0 r world req :
  sent w0 = None → URLParam_id r ≠ "" →
  asUpdateTaskRequest (req_Body r) = Some req →
  Validator.Struct req = None →
  classified (update_outcome (URLParam_id r) world)
             (Service.Update (URLParam_id r) req world).1
             w0 (Handler.Update w0 r world).1
             "Failed to update task" Http.StatusOK.
Proof.
  intros Hfresh Hid Hbody Hvalid. unfold Handler.Update.
  rewrite (nonempty_eqb _ Hid), Hbody. run.
  rewrite Service_Update_run, Repository_Update_run by assumption.
  unfold update_outcome.
  destruct (read_outcome (URLParam_id r) world); cbn.
  - destruct (reply_at 1 world); cbn.
    + split; [eauto | now apply WriteJSON_status].
    + split; [eauto | now apply WriteJSON_responds].
    + split; [eauto | now apply WriteJSON_status].
  - split; [reflexivity | now apply WriteJSON_responds].
  - split; [eauto | now apply WriteJSON_responds].
Qed.

Lemma delete_classified w0 r world :
  sent w0 = None → URLParam_id r ≠ "" →
  classified (delete_outcome (URLParam_id r) world)
             (as_result (Service.Delete (URLParam_id r) world).1)
             w0 (Handler.Delete w0 r world).1
             "Failed to delete task" Http.StatusNoContent.
Proof.
  intros Hfresh Hid. unfold Handler.Delete. rewrite (nonempty_eqb _ Hid).
  run. rewrite Service_Delete_run, Repository_Delete_run. cbv zeta.
  unfold delete_outcome.
  destruct (reply_at 0 world); cbn.
  - destruct (tasks world !! URLParam_id r); cbn.
    + split; [eauto | now apply NoContent_status].
    + split; [reflexivity | now apply WriteJSON_responds].
  - split; [eauto | now apply WriteJSON_responds].
  - split; [eauto | now apply WriteJSON_responds].
Qed.

(** C4: in GetByID, Update and Delete the storage's no-row condition (no
    matching row on the read, zero rows affected by the delete) is the one
    condition that becomes the NotFound error and the response 404
    [{"error": "Task not found"}]; every other storage failure becomes an
    error that is not NotFound and the response 500 with a fixed message
    that carries nothing of the storage error's text. *)
Theorem not_found_only_for_no_row w0 r world :
  sent w0 = None →
  URLParam_id r ≠ "" →
  classified (read_outcome (URLParam_id r) world)
             (Service.GetByID (URLParam_id r) world).1
             w0 (Handler.GetByID w0 r world).1
             "Failed to retrieve task" Http.StatusOK
  ∧ (∀ req, asUpdateTaskRequest (req_Body r) = Some req →
            Validator.Struct req = None →
            classified (update_outcome (URLParam_id r) world)
                       (Service.Update (URLParam_id r) req world).1
                       w0 (Handler.Update w0 r world).1
                       "Failed to update task" Http.StatusOK)
  ∧ classified (delete_outcome (URLParam_id r) world)
               (as_result (Service.Delete (URLParam_id r) world).1)
               w0 (Handler.Delete w0 r world).1
               "Failed to delete task" Http.StatusNoContent.
Proof.
  intros Hfresh Hid. split; [now apply get_by_id_classified |].
  split; [intros req; now apply update_classified | now apply delete_classified].
Qed.

(** DELETE /tasks/missing on an empty table: 404, "Task not found". *)
Lemma not_found_only_for_no_row_witness :
  as_result (Service.Delete "missing" empty_world).1 = Err Service.ErrTaskNotFound
  ∧ responds NewRecorder (Handler.Delete NewRecorder delete_missing_request empty_world).1
             404 (JObject [("error", JString "Task not found")]).
Proof.
  destruct (not_found_only_for_no_row NewRecorder delete_missing_request empty_world)
    as (_ & _ & Hdelete).
  - reflexivity.
  - vm_compute. discriminate.
  - exact Hdelete.
Defined.

End ClassificationProperties.

(** ** Creation and validation *)

Section CreateProperties.
Import Model.

Ltac run := unfold mbind, IO_bind, bind, mret, IO_ret, ret.

Lemma errors_Is_validation_failure err :
  errors_Is (Service.validation_failure err) service_ErrValidation = true.
Proof. reflexivity. Qed.

(** An empty title fails the [required] tag. *)
Lemma empty_title_invalid (req : CreateTaskRequest) :
  create_Title req = "" → Validator.Struct req ≠ None.
Proof.
  intros Htitle. unfold Validator.Struct, Validator.violations.
  cbn [Validator.fields Validator.CreateTaskRequest_validated omap list_omap].
  unfold Validator.field_error at 1, Validator.check_field at 1.
  cbn [Validator.sf_Value Validator.sf_Tags Validator.first_failure Validator.passes].
  rewrite Htitle. cbn. destruct (Validator.field_error _ _); discriminate.
Qed.

(** C5: a creation request that fails validation yields an error that is
    the Validation error, and the world is left exactly as it was: no
    statement is sent, no reply of the driver is used, no row is stored. *)
Theorem create_invalid_no_storage (req : CreateTaskRequest) (w : World) :
  Validator.Struct req ≠ None →
  ∃ e, Service.Create req w = (Err e, w)
       ∧ errors_Is e service_ErrValidation = true
       ∧ tasks (Service.Create req w).2 = tasks w
       ∧ log (Service.Create req w).2 = log w.
Proof.
  intros Hinvalid. unfold Service.Create.
  destruct (Validator.Struct req) as [err|]; [| contradiction].
  exists (Service.validation_failure err). repeat split.
Qed.

(** A request with an empty title is refused and nothing is stored. *)
Lemma create_invalid_no_storage_witness :
  ∃ e, Service.Create untitled empty_world = (Err e, empty_world)
       ∧ errors_Is e service_ErrValidation = true
       ∧ tasks (Service.Create untitled empty_world).2 = tasks empty_world
       ∧ log (Service.Create untitled empty_world).2 = log empty_world.
Proof.
  apply (create_invalid_no_storage untitled empty_world).
  vm_compute. discriminate.
Defined.

(** The first element [omap] yields comes from the first element of the
    list that [g] maps to something. *)
Lemma omap_first {A B} (g : A → option B) (l : list A) (y : B) (ys : list B) :
  omap g l = y :: ys →
  ∃ pre x post, l = (pre ++ x :: post)%list
                ∧ Forall (λ z, g z = None) pre
                ∧ g x = Some y
                ∧ omap g post = ys.
Proof.
  induction l as [|a l IH]; cbn; [discriminate |].
  destruct (g a) as [b|] eqn:Ha.
  - intros [= -> <-]. exists [], a, l. repeat split; [constructor | assumption].
  - intros Hrest. destruct (IH Hrest) as (pre & x & post & -> & Hpre & Hx & Hpost).
    exists (a :: pre), x, post. repeat split; [constructor | |]; assumption.
Qed.

(** Every message has the form "<Field> <reason>". *)
Lemma message_form (e : FieldError) :
  ∃ reason, reason_of e reason ∧ Service.message e = fe_Field e +:+ " " +:+ reason.
Proof.
  unfold Service.message.
  destruct (String.eqb_spec (fe_Tag e) "required") as [Hreq | Hreq].
  { eexists. split; [now apply reason_required | reflexivity]. }
  destruct (String.eqb_spec (fe_Tag e) "min") as [Hmin | Hmin].
  { eexists. split; [now apply reason_min | reflexivity]. }
  destruct (String.eqb_spec (fe_Tag e) "max") as [Hmax | Hmax].
  { eexists. split; [now apply reason_max | reflexivity]. }
  destruct (String.eqb_spec (fe_Tag e) "oneof") as [Hone | Hone].
  { eexists. split; [now apply reason_oneof | reflexivity]. }
  eexists. split; [now apply reason_invalid | reflexivity].
Qed.

Lemma field_error_name ns f e :
  Validator.field_error ns f = Some e → fe_Field e = Validator.sf_Name f.
Proof.
  unfold Validator.field_error.
  destruct (Validator.check_field f); [intros [= <-]; reflexivity | discriminate].
Qed.

(** C6: when validation fails, the message is that of exactly one
    violation, the one of the first field in declaration order that fails
    a constraint; it reads "<Field> <reason>" with the reason fixed by the
    kind of the constraint; violations of later fields change nothing. *)
Theorem first_violation_reported {A} `{Validator.Validated A} (a : A) (err : error) :
  Validator.Struct a = Some err →
  ∃ e later pre f post,
    err = ValidationErrors (e :: later)
    ∧ Validator.fields a = (pre ++ f :: post)%list
    ∧ Forall (λ g, Validator.check_field g = None) pre
    ∧ Validator.field_error Validator.type_name f = Some e
    ∧ fe_Field e = Validator.sf_Name f
    ∧ (∃ reason, reason_of e reason
                 ∧ Service.formatValidationErrors err = fe_Field e +:+ " " +:+ reason)
    ∧ (∀ later', Service.formatValidationErrors (ValidationErrors (e :: later'))
                 = Service.formatValidationErrors err).
Proof.
  unfold Validator.Struct, Validator.violations.
  destruct (omap _ (Validator.fields a)) as [|e later] eqn:Hviol; [discriminate |].
  intros [= <-].
  destruct (omap_first _ _ _ _ Hviol) as (pre & f & post & Hfields & Hpre & Hf & _).
  exists e, later, pre, f, post.
  split; [reflexivity |]. split; [assumption |].
  split.
  { eapply Forall_impl; [exact Hpre |]. intros g Hg. cbn in Hg.
    unfold Validator.field_error in Hg.
    destruct (Validator.check_field g); [discriminate | reflexivity]. }
  split; [assumption |].
  split; [now apply field_error_name with (ns := Validator.type_name) |].
  split; [| reflexivity].
  destruct (message_form e) as (reason & Hreason & Hmsg).
  exists reason. split; [assumption | exact Hmsg].
Qed.

(** An update with an empty title and an unknown status: the title's
    violation is the one reported. *)
Lemma first_violation_reported_witness :
  ∃ e later pre f post,
    ValidationErrors (Validator.violations bad_update) = ValidationErrors (e :: later)
    ∧ Validator.fields bad_update = (pre ++ f :: post)%list
    ∧ Forall (λ g, Validator.check_field g = None) pre
    ∧ Validator.field_error Validator.type_name f = Some e
    ∧ fe_Field e = Validator.sf_Name f
    ∧ (∃ reason, reason_of e reason
                 ∧ Service.formatValidationErrors
                     (ValidationErrors (Validator.violations bad_update))
                   = fe_Field e +:+ " " +:+ reason)
    ∧ (∀ later', Service.formatValidationErrors (ValidationErrors (e :: later'))
                 = Service.formatValidationErrors
                     (ValidationErrors (Validator.violations bad_update))).
Proof.
  apply (first_violation_reported bad_update). vm_compute. reflexivity.
Defined.

Example bad_update_message :
  Service.formatValidationErrors
    (ValidationErrors (Validator.violations bad_update))
  = "Title must be at least 1 characters"
  ∧ fe_Field <$> Validator.violations bad_update = ["Title"; "Status"].
Proof. vm_compute. split; reflexivity. Qed.

(** The insert of a creation. *)
Lemma Repository_Create_run task w :
  let stmt := InsertTask (Title task) (Description task) "pending" in
  let id := gen_random_uuid w (drawn w) in
  let row := {| row_title := Title task; row_description := Description task;
                row_status := "pending";
                row_created_at := pg_now w; row_updated_at := pg_now w |} in
  match Repository.Create task w with
  | (Ok created, w') =>
      (∀ msg, reply_at 0 w ≠ Fail msg)
      ∧ tasks w !! id = None
      ∧ created = Database.task_of_row id row
      ∧ tasks w' = <[id := row]> (tasks w)
      ∧ log w' = (log w ++ [stmt])%list
  | (Err e, w') =>
      tasks w' = tasks w
      ∧ errors_Is e service_ErrValidation = false
      ∧ (tasks w !! id = None → ∃ msg, reply_at 0 w = Fail msg)
  end.
Proof.
  cbv zeta. unfold Repository.Create, Database.QueryRow. run.
  unfold Database.send at 1. rewrite reply_at_0.
  destruct (reply_at 0 w) as [|msg|msg] eqn:Hreply; cbn [Database.execute];
    unfold Database.insert; cbn [tasks gen_random_uuid drawn pg_now log];
    destruct (tasks w !! gen_random_uuid w (drawn w)) eqn:Hid;
    cbn; repeat split; try discriminate; try (intros; discriminate); eauto.
Qed.

(** C7: a creation that succeeds stores and returns a task whose status is
    "pending" whatever the request holds, whose id is the one the database
    drew (an id no stored task had) and whose creation and update times are
    equal; the handler answers 201 and the body is the JSON object of that
    task: the drawn id, the title and description of the request, the status
    "pending", and the database's NOW() as created_at and as updated_at. *)
Theorem create_success (req : CreateTaskRequest) (w w' : World) (resp : TaskResponse) :
  Service.Create req w = (Ok resp, w') →
  let id := gen_random_uuid w (drawn w) in
  let row := {| row_title := create_Title req;
                row_description := create_Description req;
                row_status := "pending";
                row_created_at := pg_now w; row_updated_at := pg_now w |} in
  resp = ToResponse (Database.task_of_row id row)
  ∧ resp_Status resp = "pending"
  ∧ resp_ID resp = id
  ∧ tasks w !! id = None
  ∧ resp_CreatedAt resp = resp_UpdatedAt resp
  ∧ tasks w' = <[id := row]> (tasks w)
  ∧ log w' = (log w ++ [InsertTask (create_Title req) (create_Description req) "pending"])%list
  ∧ ∀ w0 r, sent w0 = None →
            asCreateTaskRequest (req_Body r) = Some req →
            (Handler.Create w0 r w).2 = w'
            ∧ responds w0 (Handler.Create w0 r w).1 Http.StatusCreated
                (JObject [("id", JString id);
                          ("title", JString (create_Title req));
                          ("description", JString (create_Description req));
                          ("status", JString "pending");
                          ("created_at", JTime (pg_now w));
                          ("updated_at", JTime (pg_now w))]).
Proof.
  intros Hcreate. cbv zeta.
  assert (Hrun := Hcreate). unfold Service.Create in Hrun.
  destruct (Validator.Struct req); [discriminate |].
  unfold mbind, IO_bind, bind in Hrun.
  match type of Hrun with
  | context [Repository.Create ?t w] =>
      pose proof (Repository_Create_run t w) as Hrepo;
      destruct (Repository.Create t w) as [[created|e] w1]
  end; [| discriminate].
  cbv zeta in Hrepo. cbn [Title Description] in Hrepo.
  destruct Hrepo as (_ & Hfresh & -> & Htasks & Hlog).
  injection Hrun as <- <-.
  repeat (split; [first [reflexivity | assumption] |]).
  intros w0 r Hw0 Hbody. unfold Handler.Create. rewrite Hbody.
  unfold mbind, IO_bind, bind. rewrite Hcreate. cbn [fst snd].
  split; [reflexivity |].
  apply (WriteJSON_responds w0 Http.StatusCreated
           (TaskResponse_json
              (ToResponse
                 (Database.task_of_row (gen_random_uuid w (drawn w))
                    {| row_title := create_Title req;
                       row_description := create_Description req;
                       row_status := "pending";
                       row_created_at := pg_now w;
                       row_updated_at := pg_now w |})))).
  assumption.
Qed.

(** POST /tasks {"title": "Buy milk"} on an empty table. *)
Lemma create_success_witness :
  let resp := {| resp_ID := "task-0"; resp_Title := "Buy milk";
                 resp_Description := ""; resp_Status := "pending";
                 resp_CreatedAt := 1000; resp_UpdatedAt := 1000 |} in
  (Service.Create buy_milk empty_world).1 = Ok resp
  ∧ responds NewRecorder (Handler.Create NewRecorder buy_milk_request empty_world).1
             201 (JObject [("id", JString "task-0");
                           ("title", JString "Buy milk");
                           ("description", JString "");
                           ("status", JString "pending");
                           ("created_at", JTime 1000);
                           ("updated_at", JTime 1000)])
  ∧ resp_CreatedAt resp = resp_UpdatedAt resp.
Proof.
  cbv zeta.
  destruct (create_success buy_milk empty_world
              (Service.Create buy_milk empty_world).2
              {| resp_ID := "task-0"; resp_Title := "Buy milk";
                 resp_Description := ""; resp_Status := "pending";
                 resp_CreatedAt := 1000; resp_UpdatedAt := 1000 |})
    as (_ & _ & _ & _ & Htimes & _ & _ & Hhandler).
  - vm_compute. reflexivity.
  - split; [vm_compute; reflexivity |].
    split; [| exact Htimes].
    apply (Hhandler NewRecorder buy_milk_request); reflexivity.
Defined.

(** A valid creation succeeds whenever the driver lets the insert through
    and the drawn id is new. *)
Lemma create_succeeds (req : CreateTaskRequest) (w : World) :
  Validator.Struct req = None →
  (∀ msg, reply_at 0 w ≠ Fail msg) →
  tasks w !! gen_random_uuid w (drawn w) = None →
  ∃ resp w', Service.Create req w = (Ok resp, w').
Proof.
  intros Hvalid Hreply Hfresh. unfold Service.Create. rewrite Hvalid.
  unfold mbind, IO_bind, bind.
  match goal with
  | |- context [Repository.Create ?t w] =>
      pose proof (Repository_Create_run t w) as Hrepo;
      destruct (Repository.Create t w) as [[created|e] w1]
  end; [eauto |].
  cbv zeta in Hrepo. destruct Hrepo as (_ & _ & Hfail).
  destruct (Hfail Hfresh) as [msg Hmsg]. now apply Hreply in Hmsg.
Qed.

End CreateProperties.

(** ** Health endpoint *)

Section HealthProperties.

Ltac run := unfold mbind, IO_bind, bind, mret, IO_ret, ret.

Lemma checkDatabase_run (world : World) :
  Handler.checkDatabase world =
    (match reply_at 0 world with
     | Fail msg =>
         {| Handler.si_Status := "unhealthy";
            Handler.si_Message := "Failed to ping database";
            Handler.si_Details := {[ "error" := JString msg ]} |}
     | Proceed | NoCount _ =>
         {| Handler.si_Status := "healthy";
            Handler.si_Message := "Database connection is active";
            Handler.si_Details :=
              <[ "open_connections" := JNumber (OpenConnections (stats world)) ]>
              (<[ "in_use" := JNumber (InUse (stats world)) ]>
              (<[ "idle" := JNumber (Idle (stats world)) ]>
              (<[ "max_open" := JNumber (MaxOpenConnections (stats world)) ]>
              (<[ "wait_count" := JNumber (WaitCount (stats world)) ]>
              {[ "wait_duration" := JString (WaitDuration (stats world)) ]})))) |}
     end, sent_world Ping world).
Proof.
  unfold Handler.checkDatabase, Database.PingContext, sent_world. run.
  unfold Database.send at 1. rewrite reply_at_0.
  destruct (reply_at 0 world); reflexivity.
Qed.

(** When the ping fails the handler answers 503 with the JSON string
    "Service unhealthy"; the health response it has built is dropped. *)
Lemma health_unhealthy_response w0 r (world : World) msg :
  sent w0 = None →
  reply_at 0 world = Fail msg →
  responds w0 (Handler.healthCheckHandler w0 r world).1
           Http.StatusServiceUnavailable (JString "Service unhealthy").
Proof.
  intros Hfresh Hreply. unfold Handler.healthCheckHandler. run.
  rewrite checkDatabase_run, Hreply. cbn. now apply WriteJSON_responds.
Qed.

(** A JSON string does not have the shape of the health payload. *)
Lemma string_is_no_health_payload (text : string) :
  ¬ health_payload_shape (JString text).
Proof. intros (st & db & Hshape & _). discriminate. Qed.

(** With the database up, the body does have that shape. *)
Lemma health_healthy_payload :
  let w := (Handler.healthCheckHandler NewRecorder health_request empty_world).1 in
  status w = Some 200 ∧ ∃ v, body w = [v] ∧ health_payload_shape v.
Proof.
  cbv zeta. split; [vm_compute; reflexivity |].
  eexists. split; [vm_compute; reflexivity |].
  eexists _, _. split; [reflexivity |].
  eexists _, _. split; [reflexivity |].
  intros k x Hin. repeat (apply elem_of_cons in Hin as [[= -> _] | Hin]; auto).
  inversion Hin.
Qed.

(** C8 at a failing input: GET /health while the database refuses the
    connection is answered with status 503, but the body is the JSON string
    "Service unhealthy", which is not the aggregate health payload. *)
Theorem health_unhealthy_body :
  let w := (Handler.healthCheckHandler NewRecorder health_request down_world).1 in
  status w = Some 503
  ∧ body w = [JString "Service unhealthy"]
  ∧ ¬ health_payload_shape (JString "Service unhealthy").
Proof.
  cbv zeta.
  destruct (health_unhealthy_response NewRecorder health_request down_world
              "dial tcp 127.0.0.1:5432: connection refused") as (Hstatus & Hbody);
    [reflexivity | reflexivity |].
  split; [exact Hstatus |]. split; [exact Hbody | apply string_is_no_health_payload].
Qed.

End HealthProperties.

(** ** More on the CORS middleware *)

Section CORSExtras.
Import Config Middleware.

Lemma origin_matches_monotone origin (allowed allowed' : list string) :
  (∀ entry, entry ∈ allowed → entry ∈ allowed') →
  origin_matches origin allowed → origin_matches origin allowed'.
Proof. intros Hsub (e & He & Hm). exists e. split; [now apply Hsub | exact Hm]. Qed.

Lemma isOriginAllowed_grows origin (allowed allowed' : list string) :
  (∀ entry, entry ∈ allowed → entry ∈ allowed') →
  isOriginAllowed origin allowed = true →
  isOriginAllowed origin allowed' = true.
Proof.
  intros Hsub Hallowed.
  destruct (String.eqb_spec origin "") as [-> | Hne]; [discriminate |].
  apply isOriginAllowed_spec; [assumption |].
  apply (origin_matches_monotone origin allowed); [assumption |].
  now apply isOriginAllowed_spec.
Qed.

(** X1: the origin decision depends on the entries of the allow-list only,
    not on their order or multiplicity, and it grows with the list: an
    origin that is allowed stays allowed when entries are added. *)
Theorem isOriginAllowed_monotone origin (allowed allowed' : list string) :
  (∀ entry, entry ∈ allowed → entry ∈ allowed') →
  (isOriginAllowed origin allowed = true → isOriginAllowed origin allowed' = true)
  ∧ ((∀ entry, entry ∈ allowed' → entry ∈ allowed) →
     isOriginAllowed origin allowed = isOriginAllowed origin allowed').
Proof.
  intros Hsub. split; [now apply isOriginAllowed_grows |].
  intros Hsup.
  destruct (isOriginAllowed origin allowed) eqn:H1,
           (isOriginAllowed origin allowed') eqn:H2; try reflexivity.
  - rewrite <- H2. symmetry. now apply (isOriginAllowed_grows origin allowed).
  - rewrite <- H1. now apply (isOriginAllowed_grows origin allowed').
Qed.

Lemma isOriginAllowed_monotone_witness :
  isOriginAllowed "https://app.example.com"
                  ["https://other.test"; "*.example.com"; "https://other.test"] = true.
Proof.
  apply (isOriginAllowed_monotone "https://app.example.com" ["*.example.com"]).
  - intros entry Hin. apply elem_of_cons in Hin as [-> | Hin]; [| inversion Hin].
    right; left.
  - reflexivity.
Defined.

Ltac run := unfold mbind, IO_bind, bind, mret, IO_ret, ret.

Lemma WriteJSON_answered w0 code v :
  sent w0 = None → answered w0 (Pkg.WriteJSON w0 code v).
Proof.
  intros Hfresh. unfold answered, Pkg.WriteJSON, Encode, WriteHeader.
  cbn. rewrite Hfresh. cbn.
  eexists _, _. split; [reflexivity |].
  intros key Hkey. unfold Http.Set_. now apply lookup_insert_ne.
Qed.

Lemma NoContent_answered w0 : sent w0 = None → answered w0 (Pkg.NoContent w0).
Proof.
  intros Hfresh. unfold answered, Pkg.NoContent, WriteHeader. rewrite Hfresh.
  eexists _, _. split; [reflexivity | reflexivity].
Qed.

Ltac answer :=
  cbn [fst];
  first [ now apply WriteJSON_answered | now apply NoContent_answered ].

(** Every endpoint answers a fresh writer exactly once and keeps the
    headers it was handed. *)
Lemma endpoint_answered q (h : Handler) w r world :
  h ∈ endpoints q → sent w = None → answered w (h w r world).1.
Proof.
  intros Hin Hfresh. unfold endpoints in Hin.
  repeat (apply elem_of_cons in Hin as [-> | Hin]); [.. | inversion Hin].
  - unfold Handler.healthCheckHandler. run.
    destruct (Handler.checkDatabase world) as [si w'].
    destruct (String.eqb (Handler.si_Status si) "unhealthy"); answer.
  - unfold Handler.Create.
    destruct (asCreateTaskRequest (req_Body r)) as [req|]; [| answer].
    run. destruct (Service.Create req world) as [[resp|e] w']; [answer |].
    destruct (errors_Is e service_ErrValidation); answer.
  - unfold Handler.GetAll. destruct (Service.GetAll q); answer.
  - unfold Handler.GetByID.
    destruct (String.eqb (URLParam_id r) ""); [answer |].
    run. destruct (Service.GetByID (URLParam_id r) world) as [[resp|e] w']; [answer |].
    destruct (errors_Is e service_ErrTaskNotFound); answer.
  - unfold Handler.Update.
    destruct (String.eqb (URLParam_id r) ""); [answer |].
    destruct (asUpdateTaskRequest (req_Body r)) as [req|]; [| answer].
    run. destruct (Service.Update (URLParam_id r) req world) as [[resp|e] w']; [answer |].
    destruct (errors_Is e service_ErrValidation); [answer |].
    destruct (errors_Is e service_ErrTaskNotFound); answer.
  - unfold Handler.Delete.
    destruct (String.eqb (URLParam_id r) ""); [answer |].
    run. destruct (Service.Delete (URLParam_id r) world) as [[e|] w']; [| answer].
    destruct (errors_Is e service_ErrTaskNotFound); answer.
Qed.

(** X2: as the router mounts them, every endpoint answers a request that is
    not a preflight with a status, error answers included, and the response
    goes out with the headers the CORS middleware set: the request logger
    adds X-Request-Id (the id the request came with, else the generated one)
    and the endpoint at most Content-Type; no other header is added, removed
    or overwritten on the way. *)
Theorem cors_headers_reach_the_wire cfg q reqID (h : Handler) w0 r world key :
  h ∈ endpoints q →
  sent w0 = None →
  Method r ≠ "OPTIONS" →
  key ≠ "Content-Type" →
  let given := Http.Get (req_Header r) "X-Request-Id" in
  let w := (mounted cfg reqID h w0 r world).1 in
  (∃ code, status w = Some code)
  ∧ sent_header w "X-Request-Id" = Some [if String.eqb given "" then reqID else given]
  ∧ (key ≠ "X-Request-Id" →
     sent_header w key = header (setHeaders cfg w0 r) !! key).
Proof.
  intros Hin Hfresh Hmethod Hkey given w. subst w. unfold mounted.
  rewrite CORS_unfold.
  apply String.eqb_neq in Hmethod. rewrite Hmethod.
  unfold RequestLogger. cbv zeta. fold given.
  set (requestID := if String.eqb given "" then reqID else given).
  destruct (endpoint_answered q h
              (Header_Set (setHeaders cfg w0 r) "X-Request-Id" requestID) r world Hin)
    as (code & hs & Hsent & Hkeep).
  { cbn [sent Header_Set]. now rewrite setHeaders_sent. }
  unfold status, sent_header. rewrite Hsent.
  cbn [fmap option_fmap option_map mbind option_bind fst snd].
  split; [eauto |]. split.
  - rewrite Hkeep by discriminate. cbn [header Header_Set]. unfold Http.Set_.
    now rewrite lookup_insert_eq.
  - intros Hother. rewrite Hkeep by assumption. cbn [header Header_Set].
    unfold Http.Set_. now rewrite lookup_insert_ne by congruence.
Qed.

(** A 404 for https://app.example.com still carries its
    Access-Control-Allow-Origin, and the generated request id. *)
Lemma cors_headers_reach_the_wire_witness :
  (∃ code, status (mounted example_cors "host/Zq3-000001" Handler.GetByID NewRecorder
                           get_missing_request empty_world).1 = Some code)
  ∧ sent_header (mounted example_cors "host/Zq3-000001" Handler.GetByID NewRecorder
                         get_missing_request empty_world).1 "X-Request-Id"
    = Some ["host/Zq3-000001"]
  ∧ sent_header (mounted example_cors "host/Zq3-000001" Handler.GetByID NewRecorder
                         get_missing_request empty_world).1 ACAO
    = header (setHeaders example_cors NewRecorder get_missing_request) !! ACAO.
Proof.
  destruct (cors_headers_reach_the_wire example_cors no_rows "host/Zq3-000001"
              Handler.GetByID NewRecorder get_missing_request empty_world ACAO)
    as (Hstatus & Hid & Hkeep).
  - unfold endpoints. do 3 right. left.
  - reflexivity.
  - vm_compute. discriminate.
  - vm_compute. discriminate.
  - split; [exact Hstatus |]. split; [exact Hid |].
    apply Hkeep. vm_compute. discriminate.
Defined.

Example not_found_carries_allow_origin :
  let w := (mounted example_cors "host/Zq3-000001" Handler.GetByID NewRecorder
                    get_missing_request empty_world).1 in
  status w = Some 404
  ∧ sent_header w ACAO = Some ["https://app.example.com"]
  ∧ sent_header w "X-Request-Id" = Some ["host/Zq3-000001"]
  ∧ sent_header w "Content-Type" = Some ["application/json"].
Proof. vm_compute. repeat split. Qed.

End CORSExtras.

(** ** Requests refused before the storage is reached *)

Section RefusalProperties.
Import Model.

Ltac run := unfold mbind, IO_bind, bind, mret, IO_ret, ret.

Lemma BadRequest_refuses (h : Handler) w0 r world msg :
  sent w0 = None →
  h w0 r world = (Pkg.BadRequest w0 msg, world) →
  refuses h w0 r world msg.
Proof.
  intros Hfresh Hrun. split; [assumption |]. rewrite Hrun.
  now apply WriteJSON_responds.
Qed.

(** X3: a request for one task that carries no id is refused with 400
    "Task ID is required" by GetByID, Update and Delete, for Update even
    when its body does not decode; a body that does not decode is refused
    with 400 "Invalid JSON payload" by Create and Update.  In each case
    nothing is sent to the storage. *)
Theorem malformed_requests_refused w0 r world :
  sent w0 = None →
  (URLParam_id r = "" →
   refuses Handler.GetByID w0 r world "Task ID is required"
   ∧ refuses Handler.Update w0 r world "Task ID is required"
   ∧ refuses Handler.Delete w0 r world "Task ID is required")
  ∧ (asCreateTaskRequest (req_Body r) = None →
     refuses Handler.Create w0 r world "Invalid JSON payload")
  ∧ (URLParam_id r ≠ "" → asUpdateTaskRequest (req_Body r) = None →
     refuses Handler.Update w0 r world "Invalid JSON payload").
Proof.
  intros Hfresh. repeat split_and.
  - intros Hid.
    repeat split_and; apply BadRequest_refuses; try assumption.
    + unfold Handler.GetByID. now rewrite Hid.
    + unfold Handler.Update. now rewrite Hid.
    + unfold Handler.Delete. now rewrite Hid.
  - intros Hbody. apply BadRequest_refuses; [assumption |].
    unfold Handler.Create. now rewrite Hbody.
  - intros Hid Hbody. apply BadRequest_refuses; [assumption |].
    unfold Handler.Update. rewrite (nonempty_eqb _ Hid), Hbody. reflexivity.
Qed.

Lemma malformed_requests_refused_witness :
  refuses Handler.Update NewRecorder shapeless_request milk_world "Task ID is required"
  ∧ refuses Handler.Create NewRecorder shapeless_request milk_world "Invalid JSON payload".
Proof.
  destruct (malformed_requests_refused NewRecorder shapeless_request milk_world)
    as (Hid & Hcreate & _); [reflexivity |].
  split; [apply Hid; reflexivity | apply Hcreate; reflexivity].
Defined.

(** X4: a request that decodes but fails validation is refused by Create
    and by Update with 400 and the message "validation error: " followed by
    the text of the first violation; nothing is sent to the storage, so an
    invalid update of a task that does not exist is a 400, not a 404. *)
Theorem invalid_requests_refused w0 r world :
  sent w0 = None →
  (∀ req err, asCreateTaskRequest (req_Body r) = Some req →
     Validator.Struct req = Some err →
     refuses Handler.Create w0 r world
             ("validation error: " +:+ Service.formatValidationErrors err))
  ∧ (∀ req err, URLParam_id r ≠ "" →
       asUpdateTaskRequest (req_Body r) = Some req →
       Validator.Struct req = Some err →
       refuses Handler.Update w0 r world
               ("validation error: " +:+ Service.formatValidationErrors err)).
Proof.
  intros Hfresh. split.
  - intros req err Hbody Hinvalid. apply BadRequest_refuses; [assumption |].
    unfold Handler.Create, Service.Create. rewrite Hbody. run.
    rewrite Hinvalid. reflexivity.
  - intros req err Hid Hbody Hinvalid. apply BadRequest_refuses; [assumption |].
    unfold Handler.Update, Service.Update.
    rewrite (nonempty_eqb _ Hid), Hbody. run. rewrite Hinvalid. reflexivity.
Qed.

(** An invalid update of a task that does not exist: 400 with the title's
    violation. *)
Lemma invalid_requests_refused_witness :
  refuses Handler.Update NewRecorder bad_update_request empty_world
          ("validation error: "
           +:+ Service.formatValidationErrors
                 (ValidationErrors (Validator.violations bad_update)))
  ∧ tasks empty_world !! "missing" = None.
Proof.
  destruct (invalid_requests_refused NewRecorder bad_update_request empty_world)
    as (_ & Hupdate); [reflexivity |].
  split; [| reflexivity].
  apply (Hupdate bad_update (ValidationErrors (Validator.violations bad_update)));
    [vm_compute; discriminate | reflexivity | vm_compute; reflexivity].
Defined.

Example invalid_update_of_missing_task :
  let w := (Handler.Update NewRecorder bad_update_request empty_world).1 in
  status w = Some 400
  ∧ body w = [JObject [("error",
                        JString "validation error: Title must be at least 1 characters")]].
Proof. vm_compute. split; reflexivity. Qed.

End RefusalProperties.

(** ** Writes, and reads after writes *)

Section StoreProperties.
Import Model.

Ltac run := unfold mbind, IO_bind, bind, mret, IO_ret, ret.

Lemma Service_Create_cases req w :
  let id := gen_random_uuid w (drawn w) in
  let row := {| row_title := create_Title req;
                row_description := create_Description req;
                row_status := "pending";
                row_created_at := pg_now w; row_updated_at := pg_now w |} in
  match Service.Create req w with
  | (Ok resp, w') =>
      Validator.Struct req = None
      ∧ (∀ msg, reply_at 0 w ≠ Fail msg)
      ∧ tasks w !! id = None
      ∧ resp = ToResponse (Database.task_of_row id row)
      ∧ tasks w' = <[id := row]> (tasks w)
  | (Err e, w') =>
      tasks w' = tasks w
      ∧ (Validator.Struct req = None →
         errors_Is e service_ErrValidation = false
         ∧ ((∃ msg, reply_at 0 w = Fail msg) ∨ is_Some (tasks w !! id)))
  end.
Proof.
  cbv zeta. unfold Service.Create.
  destruct (Validator.Struct req) as [err|] eqn:Hvalid.
  { cbn. split; [reflexivity | discriminate]. }
  run.
  match goal with
  | |- context [Repository.Create ?t w] =>
      pose proof (Repository_Create_run t w) as Hrepo;
      destruct (Repository.Create t w) as [[created|e] w1]
  end; cbv zeta in Hrepo; cbn [Title Description] in Hrepo.
  - destruct Hrepo as (Hreply & Hfresh & -> & Htasks & _). repeat split; assumption.
  - destruct Hrepo as (Htasks & Hkind & Hcause).
    split; [assumption |]. intros _. split; [exact Hkind |].
    destruct (tasks w !! gen_random_uuid w (drawn w)) eqn:Hid; [right; eauto |].
    left. now apply Hcause.
Qed.

(** X5: a valid creation fails only when the driver fails the insert or the
    drawn id is already a key; it then stores nothing, its error is not the
    Validation error, and the handler answers 500 "Failed to create task",
    with nothing of the driver's text. *)
Theorem create_failure_is_internal req world e w' :
  Service.Create req world = (Err e, w') →
  Validator.Struct req = None →
  tasks w' = tasks world
  ∧ errors_Is e service_ErrValidation = false
  ∧ ((∃ msg, reply_at 0 world = Fail msg)
     ∨ is_Some (tasks world !! gen_random_uuid world (drawn world)))
  ∧ ∀ w0 r, sent w0 = None →
            asCreateTaskRequest (req_Body r) = Some req →
            responds w0 (Handler.Create w0 r world).1
                     Http.StatusInternalServerError
                     (error_object "Failed to create task").
Proof.
  intros Hcreate Hvalid.
  pose proof (Service_Create_cases req world) as Hcases.
  rewrite Hcreate in Hcases. cbv zeta in Hcases.
  destruct Hcases as (Htasks & Hrest). destruct (Hrest Hvalid) as (Hkind & Hcause).
  repeat (split; [assumption |]).
  intros w0 r Hfresh Hbody. unfold Handler.Create. rewrite Hbody. run.
  rewrite Hcreate, Hkind. cbn [fst]. now apply WriteJSON_responds.
Qed.

Lemma create_failure_is_internal_witness :
  responds NewRecorder (Handler.Create NewRecorder buy_milk_request down_world).1
           500 (JObject [("error", JString "Failed to create task")])
  ∧ tasks (Service.Create buy_milk down_world).2 = tasks down_world.
Proof.
  destruct (create_failure_is_internal buy_milk down_world
              (match (Service.Create buy_milk down_world).1 with
               | Err e => e
               | Ok _ => Service.ErrValidation
               end)
              (Service.Create buy_milk down_world).2)
    as (Htasks & _ & _ & Hhandler).
  - vm_compute. reflexivity.
  - vm_compute. reflexivity.
  - split; [| exact Htasks].
    apply (Hhandler NewRecorder buy_milk_request); reflexivity.
Defined.

Lemma Service_Delete_cases id w :
  match Service.Delete id w with
  | (None, w') =>
      reply_at 0 w = Proceed
      ∧ is_Some (tasks w !! id)
      ∧ tasks w' = delete id (tasks w)
      ∧ log w' = (log w ++ [DeleteTask id])%list
      ∧ ∀ n, reply_at n w' = reply_at (S n) w
  | (Some e, w') =>
      (e = Service.ErrTaskNotFound ∧ tasks w !! id = None ∧ tasks w' = tasks w)
      ∨ errors_Is e service_ErrTaskNotFound = false
  end.
Proof.
  rewrite Service_Delete_run, Repository_Delete_run. cbv zeta.
  destruct (reply_at 0 w) eqn:Hreply; cbn; [| now right | now right].
  destruct (tasks w !! id) eqn:Hid; cbn.
  - repeat split; [eauto |]. intros n. apply (reply_at_sent (DeleteTask id) n w).
  - left. repeat split.
Qed.

Lemma no_fail_read id w :
  (∀ msg, reply_at 0 w ≠ Fail msg) →
  read_outcome id w = match tasks w !! id with
                      | Some row => Found row
                      | None => NoRow
                      end.
Proof.
  intros Hreply. unfold read_outcome.
  destruct (reply_at 0 w) as [|msg|msg]; [reflexivity | | reflexivity].
  now destruct (Hreply msg).
Qed.

(** X6: a deletion that succeeds removes the row of that id and no other,
    with one DELETE statement; the handler answers 204 without body and
    without adding a header. *)
Theorem delete_removes_one_row id world w' :
  Service.Delete id world = (None, w') →
  is_Some (tasks world !! id)
  ∧ tasks w' !! id = None
  ∧ (∀ other, other ≠ id → tasks w' !! other = tasks world !! other)
  ∧ log w' = (log world ++ [DeleteTask id])%list
  ∧ ∀ w0 r, sent w0 = None → URLParam_id r = id → id ≠ "" →
            sent (Handler.Delete w0 r world).1 = Some (Http.StatusNoContent, header w0)
            ∧ body (Handler.Delete w0 r world).1 = body w0.
Proof.
  intros Hdelete. pose proof (Service_Delete_cases id world) as Hcases.
  rewrite Hdelete in Hcases. destruct Hcases as (_ & Hthere & Htasks & Hlog & _).
  split; [assumption |]. rewrite Htasks.
  split; [apply lookup_delete_eq |].
  split; [intros other Hother; now apply lookup_delete_ne |].
  split; [assumption |].
  intros w0 r Hfresh Hr Hid. unfold Handler.Delete.
  rewrite Hr, (nonempty_eqb _ Hid). run. rewrite Hdelete. cbn [fst].
  unfold Pkg.NoContent, WriteHeader. rewrite Hfresh. split; reflexivity.
Qed.

Lemma delete_removes_one_row_witness :
  is_Some (tasks milk_world !! "task-0")
  ∧ tasks (Service.Delete "task-0" milk_world).2 !! "task-0" = None
  ∧ sent (Handler.Delete NewRecorder delete_milk_request milk_world).1
    = Some (204, header NewRecorder).
Proof.
  destruct (delete_removes_one_row "task-0" milk_world
              (Service.Delete "task-0" milk_world).2)
    as (Hthere & Hgone & _ & _ & Hhandler); [vm_compute; reflexivity |].
  split; [exact Hthere |]. split; [exact Hgone |].
  apply (Hhandler NewRecorder delete_milk_request);
    [reflexivity | reflexivity | vm_compute; discriminate].
Defined.

(** X7: a task that was deleted is gone: while the driver answers, reading
    it, updating it with a valid request and deleting it again all end in
    the NotFound error. *)
Theorem deleted_task_is_gone id world w' :
  Service.Delete id world = (None, w') →
  ((∀ msg, reply_at 0 w' ≠ Fail msg) →
   (Service.GetByID id w').1 = Err Service.ErrTaskNotFound
   ∧ ∀ req, Validator.Struct req = None →
            (Service.Update id req w').1 = Err Service.ErrTaskNotFound)
  ∧ (reply_at 0 w' = Proceed →
     (Service.Delete id w').1 = Some Service.ErrTaskNotFound).
Proof.
  intros Hdelete. pose proof (Service_Delete_cases id world) as Hcases.
  rewrite Hdelete in Hcases. destruct Hcases as (_ & _ & Htasks & _ & _).
  assert (tasks w' !! id = None) as Hgone by (rewrite Htasks; apply lookup_delete_eq).
  split.
  - intros Hreply.
    assert (read_outcome id w' = NoRow) as Hread
      by (rewrite no_fail_read, Hgone by assumption; reflexivity).
    split.
    + rewrite Service_GetByID_run, Hread. reflexivity.
    + intros req Hvalid.
      rewrite Service_Update_run, Repository_Update_run, Hread by assumption.
      reflexivity.
  - intros Hreply.
    rewrite Service_Delete_run, Repository_Delete_run. cbv zeta.
    rewrite Hreply, Hgone. reflexivity.
Qed.

Lemma deleted_task_is_gone_witness :
  (Service.GetByID "task-0" (Service.Delete "task-0" milk_world).2).1
  = Err Service.ErrTaskNotFound
  ∧ (Service.Delete "task-0" (Service.Delete "task-0" milk_world).2).1
    = Some Service.ErrTaskNotFound.
Proof.
  destruct (deleted_task_is_gone "task-0" milk_world
              (Service.Delete "task-0" milk_world).2) as (Hread & Hagain);
    [vm_compute; reflexivity |].
  split.
  - apply Hread. intros msg. vm_compute. discriminate.
  - apply Hagain. reflexivity.
Defined.

(** X8: a task can be read back as it was created: after a creation that
    succeeded, reading the returned id yields the returned task. *)
Theorem created_task_reads_back req world resp w' :
  Service.Create req world = (Ok resp, w') →
  (∀ msg, reply_at 0 w' ≠ Fail msg) →
  (Service.GetByID (resp_ID resp) w').1 = Ok resp.
Proof.
  intros Hcreate Hreply. pose proof (Service_Create_cases req world) as Hcases.
  rewrite Hcreate in Hcases. cbv zeta in Hcases.
  destruct Hcases as (_ & _ & _ & -> & Htasks).
  rewrite Service_GetByID_run, no_fail_read by assumption.
  cbn [resp_ID ToResponse Database.task_of_row ID].
  rewrite Htasks, lookup_insert_eq. reflexivity.
Qed.

Lemma created_task_reads_back_witness :
  (Service.GetByID "task-0" (Service.Create buy_milk empty_world).2).1
  = Ok {| resp_ID := "task-0"; resp_Title := "Buy milk"; resp_Description := "";
          resp_Status := "pending"; resp_CreatedAt := 1000; resp_UpdatedAt := 1000 |}.
Proof.
  apply (created_task_reads_back buy_milk empty_world
           {| resp_ID := "task-0"; resp_Title := "Buy milk"; resp_Description := "";
              resp_Status := "pending"; resp_CreatedAt := 1000; resp_UpdatedAt := 1000 |}
           (Service.Create buy_milk empty_world).2).
  - vm_compute. reflexivity.
  - intros msg. vm_compute. discriminate.
Defined.

Lemma Service_Update_ok id req w resp w' :
  Service.Update id req w = (Ok resp, w') →
  ∃ row, tasks w !! id = Some row
         ∧ resp = ToResponse (Database.task_of_row id (merged_row row req (clock w)))
         ∧ tasks w' = <[id := merged_row row req (clock w)]> (tasks w).
Proof.
  unfold Service.Update.
  destruct (Validator.Struct req); [discriminate |].
  unfold mbind, IO_bind, bind. rewrite Repository_Update_run.
  destruct (read_outcome id w) as [row| |] eqn:Hread; try discriminate.
  apply read_outcome_found in Hread. cbv zeta.
  destruct (reply_at 1 w); try discriminate; intros [= <- <-]; eauto.
Qed.

(** X9: an update can be read back: after an update that succeeded,
    reading the id of the task the update returned yields that same task. *)
Theorem updated_task_reads_back id req world resp w' :
  Service.Update id req world = (Ok resp, w') →
  (∀ msg, reply_at 0 w' ≠ Fail msg) →
  (Service.GetByID (resp_ID resp) w').1 = Ok resp.
Proof.
  intros Hupdate Hreply.
  destruct (Service_Update_ok _ _ _ _ _ Hupdate) as (row & _ & -> & Htasks).
  cbn [resp_ID ToResponse Database.task_of_row ID].
  rewrite Service_GetByID_run, no_fail_read by assumption.
  rewrite Htasks, lookup_insert_eq. reflexivity.
Qed.

Lemma updated_task_reads_back_witness :
  let done := (Service.Update "task-0" complete_request milk_world) in
  (Service.GetByID "task-0" done.2).1 = done.1
  ∧ ∃ resp, done.1 = Ok resp ∧ resp_Status resp = "completed".
Proof.
  cbv zeta. split.
  - apply (updated_task_reads_back "task-0" complete_request milk_world
             {| resp_ID := "task-0"; resp_Title := "Buy milk";
                resp_Description := "two litres"; resp_Status := "completed";
                resp_CreatedAt := 1000; resp_UpdatedAt := 2000 |}
             (Service.Update "task-0" complete_request milk_world).2).
    + vm_compute. reflexivity.
    + intros msg. vm_compute. discriminate.
  - eexists. split; [vm_compute; reflexivity | reflexivity].
Defined.

(** X10: reading a task changes no row and sends one SELECT; two reads in
    a row that the driver both answers give the same result. *)
Theorem get_by_id_only_reads id world :
  tasks (Service.GetByID id world).2 = tasks world
  ∧ log (Service.GetByID id world).2 = (log world ++ [SelectTaskByID id])%list
  ∧ ((∀ msg, reply_at 0 world ≠ Fail msg) → (∀ msg, reply_at 1 world ≠ Fail msg) →
     (Service.GetByID id (Service.GetByID id world).2).1
     = (Service.GetByID id world).1).
Proof.
  split; [now rewrite Service_GetByID_run |].
  split; [now rewrite Service_GetByID_run |].
  intros H0 H1. rewrite (Service_GetByID_run id world). cbn [fst snd].
  rewrite Service_GetByID_run. cbn [fst].
  rewrite !no_fail_read; [| assumption |].
  - rewrite tasks_sent. now destruct (tasks world !! id).
  - intros msg. rewrite reply_at_sent. apply H1.
Qed.

End StoreProperties.

(** ** Which requests are valid, and what validity preserves *)

Section ValidityProperties.
Import Model.

Lemma RuneCount_positive (s : string) :
  s ≠ "" ↔ (1 <= Utf8.RuneCountInString s)%nat.
Proof.
  unfold Utf8.RuneCountInString, Utf8.bytes. destruct s as [|c s]; cbn.
  - split; [congruence | lia].
  - split; [lia | discriminate].
Qed.

Lemma asInt_1 : Validator.asInt "1" = 1.
Proof. reflexivity. Qed.

Lemma asInt_255 : Validator.asInt "255" = 255.
Proof. reflexivity. Qed.

Lemma asInt_1000 : Validator.asInt "1000" = 1000.
Proof. reflexivity. Qed.

Lemma status_words : String.words "pending in_progress completed" = statuses.
Proof. reflexivity. Qed.

Lemma omap_nil {A B} (g : A → option B) (l : list A) :
  omap g l = [] ↔ Forall (λ x, g x = None) l.
Proof.
  induction l as [|x l IH]; cbn.
  - split; [constructor | reflexivity].
  - rewrite Forall_cons. destruct (g x).
    + split; [discriminate | intros [[=] _]].
    + rewrite IH. tauto.
Qed.

Lemma Struct_None {A} `{Validator.Validated A} (a : A) :
  Validator.Struct a = None
  ↔ Forall (λ f, Validator.check_field f = None) (Validator.fields a).
Proof.
  unfold Validator.Struct, Validator.violations.
  assert (omap (Validator.field_error Validator.type_name) (Validator.fields a) = []
          ↔ Forall (λ f, Validator.check_field f = None) (Validator.fields a)) as <-.
  { rewrite omap_nil. apply Forall_proper; [| reflexivity].
    intros f. unfold Validator.field_error.
    destruct (Validator.check_field f); split; congruence. }
  destruct (omap _ _); split; congruence.
Qed.

Lemma create_valid_spec (req : CreateTaskRequest) :
  Validator.Struct req = None
  ↔ create_Title req ≠ ""
    ∧ (Utf8.RuneCountInString (create_Title req) <= 255)%nat
    ∧ (Utf8.RuneCountInString (create_Description req) <= 1000)%nat.
Proof.
  rewrite Struct_None.
  cbn [Validator.fields Validator.CreateTaskRequest_validated].
  rewrite !Forall_cons, Forall_nil.
  unfold Validator.check_field.
  cbn [Validator.sf_Value Validator.sf_Tags].
  assert (Validator.first_failure false (create_Title req)
            [Validator.tag_required; Validator.tag_min "1"; Validator.tag_max "255"]
          = None
          ↔ create_Title req ≠ ""
            ∧ (Utf8.RuneCountInString (create_Title req) <= 255)%nat) as Htitle.
  { cbn [Validator.first_failure Validator.passes Validator.hasValue orb].
    rewrite asInt_1, asInt_255.
    pose proof (RuneCount_positive (create_Title req)) as Hpos.
    destruct (String.eqb_spec (create_Title req) "") as [Hempty | Hfull]; cbn [negb].
    { split; [discriminate | intros [Hne _]; contradiction]. }
    destruct (Z.leb_spec 1 (Z.of_nat (Utf8.RuneCountInString (create_Title req))));
      [| apply Hpos in Hfull; lia].
    destruct (Z.leb_spec (Z.of_nat (Utf8.RuneCountInString (create_Title req))) 255).
    - split; [| reflexivity]. intros _. split; [assumption | lia].
    - split; [discriminate | intros [_ ?]; lia]. }
  assert (Validator.first_failure false (create_Description req)
            [Validator.tag_max "1000"] = None
          ↔ (Utf8.RuneCountInString (create_Description req) <= 1000)%nat)
    as Hdescription.
  { cbn [Validator.first_failure Validator.passes].
    rewrite asInt_1000.
    destruct (Z.leb_spec (Z.of_nat (Utf8.RuneCountInString (create_Description req))) 1000).
    - split; [intros _; lia | reflexivity].
    - split; [discriminate | intros ?; lia]. }
  rewrite Htitle, Hdescription. tauto.
Qed.

Lemma update_valid_spec (req : UpdateTaskRequest) :
  Validator.Struct req = None
  ↔ (∀ title, update_Title req = Some title →
       title ≠ "" ∧ (Utf8.RuneCountInString title <= 255)%nat)
    ∧ (∀ description, update_Description req = Some description →
         (Utf8.RuneCountInString description <= 1000)%nat)
    ∧ (∀ st, update_Status req = Some st → st ∈ statuses).
Proof.
  rewrite Struct_None.
  cbn [Validator.fields Validator.UpdateTaskRequest_validated].
  rewrite !Forall_cons, Forall_nil.
  unfold Validator.check_field.
  cbn [Validator.sf_Value Validator.sf_Tags].
  destruct req as [title description st]. cbn [update_Title update_Description update_Status].
  assert ((match title with
           | Some s => Validator.first_failure true s
                         [Validator.tag_omitempty; Validator.tag_min "1";
                          Validator.tag_max "255"]
           | None => None
           end = None)
          ↔ ∀ t, title = Some t → t ≠ "" ∧ (Utf8.RuneCountInString t <= 255)%nat)
    as Htitle.
  { destruct title as [t|]; [| split; [intros _ ? [=] | reflexivity]].
    cbn [Validator.first_failure Validator.passes Validator.hasValue orb].
    rewrite asInt_1, asInt_255.
    pose proof (RuneCount_positive t) as Hpos.
    destruct (Z.leb_spec 1 (Z.of_nat (Utf8.RuneCountInString t))).
    - destruct (Z.leb_spec (Z.of_nat (Utf8.RuneCountInString t)) 255).
      + split; [| reflexivity]. intros _ ? [= <-]. split; [apply Hpos |]; lia.
      + split; [discriminate |]. intros Hall. destruct (Hall t eq_refl). lia.
    - split; [discriminate |]. intros Hall. destruct (Hall t eq_refl) as [Hne _].
      apply Hpos in Hne. lia. }
  assert ((match description with
           | Some s => Validator.first_failure true s
                         [Validator.tag_omitempty; Validator.tag_max "1000"]
           | None => None
           end = None)
          ↔ ∀ d, description = Some d → (Utf8.RuneCountInString d <= 1000)%nat)
    as Hdescription.
  { destruct description as [d|]; [| split; [intros _ ? [=] | reflexivity]].
    cbn [Validator.first_failure Validator.passes Validator.hasValue orb].
    rewrite asInt_1000.
    destruct (Z.leb_spec (Z.of_nat (Utf8.RuneCountInString d)) 1000).
    - split; [| reflexivity]. intros _ ? [= <-]. lia.
    - split; [discriminate |]. intros Hall. specialize (Hall d eq_refl). lia. }
  assert ((match st with
           | Some s => Validator.first_failure true s
                         [Validator.tag_omitempty;
                          Validator.tag_oneof "pending in_progress completed"]
           | None => None
           end = None)
          ↔ ∀ v, st = Some v → v ∈ statuses)
    as Hstatus.
  { destruct st as [v|]; [| split; [intros _ ? [=] | reflexivity]].
    cbn [Validator.first_failure Validator.passes Validator.hasValue orb].
    rewrite status_words. case_bool_decide.
    - split; [| reflexivity]. now intros _ ? [= <-].
    - split; [discriminate |]. intros Hall. specialize (Hall v eq_refl). contradiction. }
  rewrite <- Htitle, <- Hdescription, <- Hstatus. tauto.
Qed.

(** X11: a creation request is valid exactly when its title is not empty
    and has at most 255 characters and its description has at most 1000
    characters, characters being counted as runes. *)
Theorem create_request_valid_iff (req : CreateTaskRequest) :
  Validator.Struct req = None
  ↔ create_Title req ≠ ""
    ∧ (Utf8.RuneCountInString (create_Title req) <= 255)%nat
    ∧ (Utf8.RuneCountInString (create_Description req) <= 1000)%nat.
Proof. exact (create_valid_spec req). Qed.

(** X12: an update request is valid exactly when each field it carries is
    admissible: a title of 1 to 255 characters (so not the empty string), a
    description of at most 1000 characters, a status that is pending,
    in_progress or completed.  A request without fields is valid. *)
Theorem update_request_valid_iff (req : UpdateTaskRequest) :
  Validator.Struct req = None
  ↔ (∀ title, update_Title req = Some title →
       title ≠ "" ∧ (Utf8.RuneCountInString title <= 255)%nat)
    ∧ (∀ description, update_Description req = Some description →
         (Utf8.RuneCountInString description <= 1000)%nat)
    ∧ (∀ st, update_Status req = Some st → st ∈ statuses).
Proof. exact (update_valid_spec req). Qed.

Lemma merged_row_valid row req now :
  valid_row row → Validator.Struct req = None → valid_row (merged_row row req now).
Proof.
  intros (Htitle & Hlen & Hdesc & Hstatus) Hvalid.
  apply update_valid_spec in Hvalid as (Ht & Hd & Hs).
  destruct req as [t d st]. cbn in Ht, Hd, Hs.
  unfold valid_row, merged_row. cbn.
  assert (default (row_title row) t ≠ ""
          ∧ (Utf8.RuneCountInString (default (row_title row) t) <= 255)%nat)
    as [? ?] by (destruct t; cbn; [now apply Ht | now split]).
  assert (Utf8.RuneCountInString (default (row_description row) d) <= 1000)%nat
    by (destruct d; cbn; [now apply Hd | assumption]).
  assert (default (row_status row) st ∈ statuses)
    by (destruct st; cbn; [now apply Hs | assumption]).
  repeat split; assumption.
Qed.

Lemma valid_table_insert w id row (t : gmap string Row) :
  valid_table w → valid_row row → t = <[id := row]> (tasks w) →
  ∀ k r, t !! k = Some r → valid_row r.
Proof.
  intros Hw Hrow -> k r. rewrite lookup_insert.
  case_decide; [now intros [= <-] | apply Hw].
Qed.

Lemma Service_Update_tasks id req w :
  tasks (Service.Update id req w).2 = tasks w
  ∨ (Validator.Struct req = None
     ∧ ∃ row, tasks w !! id = Some row
              ∧ tasks (Service.Update id req w).2
                = <[id := merged_row row req (clock w)]> (tasks w)).
Proof.
  destruct (Validator.Struct req) eqn:Hvalid.
  { left. unfold Service.Update. now rewrite Hvalid. }
  rewrite Service_Update_run, Repository_Update_run by assumption.
  destruct (read_outcome id w) as [row| |] eqn:Hread; [| now left | now left].
  apply read_outcome_found in Hread. cbv zeta.
  destruct (reply_at 1 w); [right | now left | right]; split; eauto.
Qed.

Lemma Service_Delete_tasks id w :
  tasks (Service.Delete id w).2 = tasks w
  ∨ tasks (Service.Delete id w).2 = delete id (tasks w).
Proof.
  rewrite Service_Delete_run, Repository_Delete_run. cbv zeta.
  destruct (reply_at 0 w), (tasks w !! id); cbn; auto.
Qed.

(** X13: the service keeps the table well formed: if every stored row has
    a title of 1 to 255 characters, a description of at most 1000 and a
    status of the enumeration, then so has every row after a Create, an
    Update, a Delete or a GetByID, whatever the request and whatever the
    driver replies. *)
Theorem service_keeps_rows_valid world :
  valid_table world →
  (∀ req, valid_table (Service.Create req world).2)
  ∧ (∀ id req, valid_table (Service.Update id req world).2)
  ∧ (∀ id, valid_table (Service.Delete id world).2)
  ∧ (∀ id, valid_table (Service.GetByID id world).2).
Proof.
  intros Hworld. repeat split_and.
  - intros req. pose proof (Service_Create_cases req world) as Hcases.
    cbv zeta in Hcases.
    destruct (Service.Create req world) as [[resp|e] w'];
      cbn [snd]; unfold valid_table.
    + destruct Hcases as (Hvalid & _ & _ & _ & Htasks).
      apply create_valid_spec in Hvalid as (Hne & Hlen & Hdesc).
      eapply (valid_table_insert world); [exact Hworld | | exact Htasks].
      repeat split; cbn; try assumption. left.
    + destruct Hcases as (-> & _). exact Hworld.
  - intros id req. unfold valid_table.
    destruct (Service_Update_tasks id req world)
      as [-> | (Hvalid & row & Hrow & Htasks)]; [exact Hworld |].
    eapply (valid_table_insert world); [exact Hworld | | exact Htasks].
    apply merged_row_valid; [now apply (Hworld id) | assumption].
  - intros id. unfold valid_table.
    destruct (Service_Delete_tasks id world) as [-> | ->]; [exact Hworld |].
    intros k r Hk. apply lookup_delete_Some in Hk as [_ Hk]. now apply (Hworld k).
  - intros id. unfold valid_table. rewrite Service_GetByID_run. exact Hworld.
Qed.

Lemma service_keeps_rows_valid_witness :
  valid_table (Service.Update "task-0" complete_request milk_world).2.
Proof.
  destruct (service_keeps_rows_valid milk_world) as (_ & Hupdate & _).
  - intros id row Hrow.
    change (tasks milk_world) with ({[ "task-0" := milk_row ]} : gmap string Row) in Hrow.
    apply lookup_singleton_Some in Hrow as [_ <-].
    unfold valid_row. split; [discriminate |].
    split; [vm_compute; lia |]. split; [vm_compute; lia | left].
  - apply Hupdate.
Defined.

End ValidityProperties.

(** ** The health endpoint when the database answers *)

Section HealthExtras.

Ltac run := unfold mbind, IO_bind, bind, mret, IO_ret, ret.

Lemma map_json_singleton {A} (f : A → json) (key : string) (a : A) :
  Handler.map_json f (<[key := a]> ∅) = JObject [(key, f a)].
Proof.
  unfold Handler.map_json. rewrite insert_empty, map_to_list_singleton.
  reflexivity.
Qed.

Lemma ServiceInfo_json_shape (si : Handler.ServiceInfo) :
  service_info_shape (Handler.ServiceInfo_json si).
Proof.
  unfold service_info_shape, Handler.ServiceInfo_json. eexists _, _.
  split; [reflexivity |]. intros k x Hin.
  destruct (String.eqb (Handler.si_Message si) ""),
           (bool_decide (Handler.si_Details si = ∅)); cbn in Hin;
    repeat (apply elem_of_cons in Hin as [[= -> _] | Hin]; [auto |]);
    inversion Hin.
Qed.

(** X14: the health check sends one ping and never touches the table; when
    the ping is answered, the response is 200 and its body has the shape
    [{status, services: {database: {status, message?, details?}}}] with both
    statuses "healthy". *)
Theorem health_check_when_up w0 r world :
  sent w0 = None →
  tasks (Handler.healthCheckHandler w0 r world).2 = tasks world
  ∧ log (Handler.healthCheckHandler w0 r world).2 = (log world ++ [Ping])%list
  ∧ ((∀ msg, reply_at 0 world ≠ Fail msg) →
     ∃ rest,
       responds w0 (Handler.healthCheckHandler w0 r world).1 Http.StatusOK
         (JObject [("status", JString "healthy");
                   ("services",
                    JObject [("database",
                              JObject (("status", JString "healthy") :: rest))])])
       ∧ health_payload_shape
           (JObject [("status", JString "healthy");
                     ("services",
                      JObject [("database",
                                JObject (("status", JString "healthy") :: rest))])])).
Proof.
  intros Hfresh. unfold Handler.healthCheckHandler. run.
  rewrite checkDatabase_run.
  split.
  { destruct (reply_at 0 world); reflexivity. }
  split.
  { destruct (reply_at 0 world); reflexivity. }
  intros Hreply.
  assert (∃ si, Handler.si_Status si = "healthy"
                ∧ match reply_at 0 world with
                  | Fail msg =>
                      {| Handler.si_Status := "unhealthy";
                         Handler.si_Message := "Failed to ping database";
                         Handler.si_Details := {[ "error" := JString msg ]} |}
                  | Proceed | NoCount _ =>
                      {| Handler.si_Status := "healthy";
                         Handler.si_Message := "Database connection is active";
                         Handler.si_Details :=
                           <[ "open_connections" := JNumber (OpenConnections (stats world)) ]>
                           (<[ "in_use" := JNumber (InUse (stats world)) ]>
                           (<[ "idle" := JNumber (Idle (stats world)) ]>
                           (<[ "max_open" := JNumber (MaxOpenConnections (stats world)) ]>
                           (<[ "wait_count" := JNumber (WaitCount (stats world)) ]>
                           {[ "wait_duration" := JString (WaitDuration (stats world)) ]})))) |}
                  end = si) as (si & Hstatus & ->).
  { destruct (reply_at 0 world) as [|msg|msg].
    - eexists. split; [| reflexivity]. reflexivity.
    - now destruct (Hreply msg).
    - eexists. split; [| reflexivity]. reflexivity. }
  rewrite Hstatus. cbn [String.eqb Ascii.eqb Bool.eqb fst].
  unfold Handler.HealthResponse_json. cbn [Handler.hr_Status Handler.hr_Services].
  rewrite map_json_singleton.
  destruct (ServiceInfo_json_shape si) as (st & rest & Hjson & Hrest).
  assert (st = "healthy") as ->.
  { unfold Handler.ServiceInfo_json in Hjson. cbn in Hjson.
    injection Hjson as <- _. exact Hstatus. }
  rewrite Hjson. exists rest.
  split; [now apply WriteJSON_responds |].
  eexists _, _. split; [reflexivity |]. eexists _, _. split; [reflexivity | exact Hrest].
Qed.

Lemma health_check_when_up_witness :
  tasks (Handler.healthCheckHandler NewRecorder health_request milk_world).2
  = tasks milk_world
  ∧ status (Handler.healthCheckHandler NewRecorder health_request milk_world).1
    = Some 200.
Proof.
  destruct (health_check_when_up NewRecorder health_request milk_world)
    as (Htasks & _ & Hup); [reflexivity |].
  split; [exact Htasks |].
  destruct Hup as (rest & [Hstatus _] & _); [intros msg; vm_compute; discriminate |].
  exact Hstatus.
Defined.

End HealthExtras.

(** ** Listing *)

Section ListingProperties.
Import Model.

Lemma GetAll_loop_run (scans : list (result Task)) (acc : slice Task) :
  match all_scanned scans with
  | Some ts =>
      Repository.GetAll_loop scans acc
      = Ok (match ts with [] => acc | _ => Some (default [] acc ++ ts)%list end)
  | None => ∃ e, Repository.GetAll_loop scans acc = Err e
  end.
Proof.
  revert acc. induction scans as [|[t|e] scans IH]; intros acc; cbn.
  - reflexivity.
  - specialize (IH (append_slice acc t)).
    destruct (all_scanned scans) as [ts|]; cbn; [| exact IH].
    rewrite IH. unfold append_slice. cbn.
    destruct ts; [reflexivity | now rewrite <- app_assoc].
  - eauto.
Qed.

Lemma responses_fold (ts : list Task) (acc : list TaskResponse) :
  fold_left (λ responses task, append_slice responses (ToResponse task)) ts (Some acc)
  = Some (acc ++ map ToResponse ts)%list.
Proof.
  revert acc. induction ts as [|t ts IH]; intros acc; cbn.
  - now rewrite app_nil_r.
  - unfold append_slice at 2. cbn. rewrite IH, <- app_assoc. reflexivity.
Qed.

Lemma Service_GetAll_ok (tasks : slice Task) q :
  Repository.GetAll q = Ok tasks →
  Service.GetAll q = Ok (Some (map ToResponse (elements_of tasks))).
Proof.
  intros Hrepo. unfold Service.GetAll. rewrite Hrepo.
  destruct tasks as [[|t ts]|]; cbn; try reflexivity.
  unfold append_slice at 2. cbn. now rewrite responses_fold.
Qed.

(** X15: the listing never answers [null]: when the query and every scan
    succeed, the service returns a slice that is not nil, also for zero
    rows, where the repository returns the nil slice, and the handler
    answers 200 with a JSON array; otherwise the handler answers 500
    "Failed to retrieve tasks". *)
Theorem get_all_never_null q w0 r world :
  sent w0 = None →
  match Service.GetAll q with
  | Ok responses =>
      ∃ l, responses = Some l
           ∧ responds w0 (Handler.GetAll q w0 r world).1 Http.StatusOK
                      (JArray (map TaskResponse_json l))
  | Err _ =>
      responds w0 (Handler.GetAll q w0 r world).1 Http.StatusInternalServerError
               (error_object "Failed to retrieve tasks")
  end
  ∧ (Handler.GetAll q w0 r world).2 = world.
Proof.
  intros Hfresh. unfold Handler.GetAll.
  destruct (Repository.GetAll q) as [tasks|e] eqn:Hrepo.
  - rewrite (Service_GetAll_ok tasks q Hrepo). split; [| reflexivity].
    eexists. split; [reflexivity |]. now apply WriteJSON_responds.
  - unfold Service.GetAll. rewrite Hrepo. split; [| reflexivity].
    now apply WriteJSON_responds.
Qed.

Lemma get_all_never_null_witness :
  Repository.GetAll no_rows = Ok None
  ∧ Service.GetAll no_rows = Ok (Some [])
  ∧ responds NewRecorder (Handler.GetAll no_rows NewRecorder health_request empty_world).1
             200 (JArray []).
Proof.
  pose proof (get_all_never_null no_rows NewRecorder health_request empty_world eq_refl)
    as [Hlist _].
  split; [reflexivity |]. split; [reflexivity |].
  change (Service.GetAll no_rows) with (Ok (Some []) : result (slice TaskResponse)) in Hlist.
  destruct Hlist as (l & [= <-] & Hresponds). exact Hresponds.
Defined.

(** X16: a listing is all or nothing and keeps the order of the result
    set: when every row scans and the iteration ends without error, the
    service returns the response of each row, one per row, in the order of
    the rows; when a row does not scan or the iteration reports an error,
    the service returns an error and no task. *)
Theorem get_all_is_all_or_nothing (rows : Database.Rows) :
  (∀ ts, all_scanned (Database.scans rows) = Some ts →
         Database.rows_Err rows = None →
         Service.GetAll (Ok rows) = Ok (Some (map ToResponse ts))
         ∧ Repository.GetAll (Ok rows)
           = Ok (match ts with [] => None | _ => Some ts end))
  ∧ (all_scanned (Database.scans rows) = None ∨ is_Some (Database.rows_Err rows) →
     ∃ e, Service.GetAll (Ok rows) = Err e).
Proof.
  pose proof (GetAll_loop_run (Database.scans rows) None) as Hloop.
  split.
  - intros ts Hts Herr. rewrite Hts in Hloop.
    assert (Repository.GetAll (Ok rows)
            = Ok (match ts with [] => None | _ => Some ts end)) as Hrepo.
    { unfold Repository.GetAll. rewrite Hloop, Herr. now destruct ts. }
    split; [| exact Hrepo].
    rewrite (Service_GetAll_ok _ _ Hrepo). now destruct ts.
  - intros Hbad. unfold Service.GetAll, Repository.GetAll.
    destruct (all_scanned (Database.scans rows)) as [ts|].
    + destruct Hbad as [[=] | [e He]]. rewrite Hloop, He. eauto.
    + destruct Hloop as [e ->]. eauto.
Qed.

Lemma get_all_is_all_or_nothing_witness :
  Service.GetAll two_rows
  = Ok (Some [ {| resp_ID := "task-1"; resp_Title := "Walk dog";
                  resp_Description := ""; resp_Status := "in_progress";
                  resp_CreatedAt := 1200; resp_UpdatedAt := 1300 |};
               {| resp_ID := "task-0"; resp_Title := "Buy milk";
                  resp_Description := "two litres"; resp_Status := "pending";
                  resp_CreatedAt := 1000; resp_UpdatedAt := 1000 |} ]).
Proof.
  unfold two_rows.
  match goal with
  | |- Service.GetAll (Ok ?rows) = _ =>
      destruct (get_all_is_all_or_nothing rows) as [Hall _]
  end.
  apply (Hall [Database.task_of_row "task-1"
                 {| row_title := "Walk dog"; row_description := "";
                    row_status := "in_progress";
                    row_created_at := 1200; row_updated_at := 1300 |};
               Database.task_of_row "task-0" milk_row]); reflexivity.
Defined.

End ListingProperties.

(** ** Configuration from the environment *)

Section ConfigProperties.
Import Config.

Lemma string_of_uint_head (d : Decimal.uint) :
  match NilEmpty.string_of_uint d with
  | String c _ => c ≠ "-"%char ∧ c ≠ "+"%char
  | "" => True
  end.
Proof. destruct d; cbn; try exact I; split; discriminate. Qed.

Lemma Pos_to_uint_not_nil (p : positive) : Pos.to_uint p ≠ Decimal.Nil.
Proof.
  intros Hnil. pose proof (DecimalPos.Unsigned.of_to p) as Hp.
  rewrite Hnil in Hp. discriminate.
Qed.

Lemma uint_of_string_to_uint (p : positive) :
  NilZero.uint_of_string (NilEmpty.string_of_uint (Pos.to_uint p))
  = Some (Pos.to_uint p).
Proof.
  pose proof (NilZero.usu (Pos.to_uint p) (Pos_to_uint_not_nil p)) as Husu.
  unfold NilZero.string_of_uint in Husu.
  destruct (Pos.to_uint p) eqn:Hd; [now destruct (Pos_to_uint_not_nil p) | exact Husu ..].
Qed.

Lemma string_of_uint_to_uint (p : positive) :
  NilZero.string_of_uint (Pos.to_uint p) = NilEmpty.string_of_uint (Pos.to_uint p).
Proof.
  unfold NilZero.string_of_uint.
  destruct (Pos.to_uint p) eqn:Hd; [now destruct (Pos_to_uint_not_nil p) | reflexivity ..].
Qed.

Lemma Z_of_uint_to_uint (p : positive) : Z.of_uint (Pos.to_uint p) = Z.pos p.
Proof. unfold Z.of_uint. now rewrite DecimalPos.Unsigned.of_to. Qed.

Lemma Atoi_unsigned (c : ascii) (rest : string) :
  c ≠ "-"%char → c ≠ "+"%char →
  Strconv.Atoi (String c rest)
  = match NilZero.uint_of_string (String c rest) with
    | None => None
    | Some u =>
        if (- 2 ^ 63 <=? Z.of_uint u) && (Z.of_uint u <? 2 ^ 63)
        then Some (Z.of_uint u) else None
    end.
Proof.
  intros Hminus Hplus. unfold Strconv.Atoi.
  destruct c as [[] [] [] [] [] [] [] []]; try reflexivity; contradiction.
Qed.

Lemma Atoi_negative (rest : string) :
  Strconv.Atoi (String "-" rest)
  = match NilZero.uint_of_string rest with
    | None => None
    | Some u =>
        if (- 2 ^ 63 <=? - Z.of_uint u) && (- Z.of_uint u <? 2 ^ 63)
        then Some (- Z.of_uint u) else None
    end.
Proof. reflexivity. Qed.

(** Reading back what [Itoa] printed. *)
Lemma Atoi_Itoa (n : Z) :
  - 2 ^ 63 <= n < 2 ^ 63 → Strconv.Atoi (Strconv.Itoa n) = Some n.
Proof.
  intros Hrange. unfold Strconv.Itoa.
  destruct n as [|p|p]; cbn [Z.to_int NilZero.string_of_int].
  - reflexivity.
  - rewrite string_of_uint_to_uint.
    pose proof (string_of_uint_head (Pos.to_uint p)) as Hhead.
    pose proof (uint_of_string_to_uint p) as Hparse.
    destruct (NilEmpty.string_of_uint (Pos.to_uint p)) as [|c rest] eqn:Hs.
    { discriminate. }
    destruct Hhead as [Hminus Hplus].
    rewrite Atoi_unsigned, Hparse, Z_of_uint_to_uint by assumption.
    destruct (Z.leb_spec (- 2 ^ 63) (Z.pos p)), (Z.ltb_spec (Z.pos p) (2 ^ 63));
      cbn; try reflexivity; lia.
  - rewrite string_of_uint_to_uint, Atoi_negative.
    rewrite uint_of_string_to_uint, Z_of_uint_to_uint.
    change (- Z.pos p) with (Z.neg p).
    destruct (Z.leb_spec (- 2 ^ 63) (Z.neg p)), (Z.ltb_spec (Z.neg p) (2 ^ 63));
      cbn; try reflexivity; lia.
Qed.

Lemma Itoa_not_empty (n : Z) : Strconv.Itoa n ≠ "".
Proof.
  unfold Strconv.Itoa.
  destruct n as [|p|p]; cbn [Z.to_int NilZero.string_of_int]; try discriminate.
  rewrite string_of_uint_to_uint.
  pose proof (uint_of_string_to_uint p) as Hparse.
  destruct (NilEmpty.string_of_uint (Pos.to_uint p)); [discriminate | discriminate].
Qed.

Lemma Getenv_insert (env : Env) key value : Getenv (<[key := value]> env) key = value.
Proof. unfold Getenv. now rewrite lookup_insert_eq. Qed.

(** X17: [getEnvAsInt] reads back any 64-bit integer written in decimal,
    and falls back on the default when the variable is unset, empty, or not
    such a number. *)
Theorem getEnvAsInt_reads_decimal (env : Env) (key : string) (d n : Z) :
  - 2 ^ 63 <= n < 2 ^ 63 →
  getEnvAsInt (<[key := Strconv.Itoa n]> env) key d = n
  ∧ getEnvAsInt (delete key env) key d = d
  ∧ getEnvAsInt (<[key := ""]> env) key d = d
  ∧ ∀ text, Strconv.Atoi text = None → getEnvAsInt (<[key := text]> env) key d = d.
Proof.
  intros Hrange. unfold getEnvAsInt. repeat split_and.
  - rewrite Getenv_insert.
    destruct (String.eqb_spec (Strconv.Itoa n) "") as [Hempty | _];
      [now destruct (Itoa_not_empty n) |].
    cbn [negb]. now rewrite Atoi_Itoa.
  - unfold Getenv. now rewrite lookup_delete_eq.
  - now rewrite Getenv_insert.
  - intros text Hbad. rewrite Getenv_insert, Hbad. now destruct (negb _).
Qed.

Lemma getEnvAsInt_reads_decimal_witness :
  getEnvAsInt {[ "CORS_MAX_AGE" := "600" ]} "CORS_MAX_AGE" 300 = 600
  ∧ getEnvAsInt {[ "CORS_MAX_AGE" := "ten minutes" ]} "CORS_MAX_AGE" 300 = 300.
Proof.
  destruct (getEnvAsInt_reads_decimal ∅ "CORS_MAX_AGE" 300 600)
    as (Hread & _ & _ & Hbad); [lia |].
  split; [exact Hread |]. apply (Hbad "ten minutes"). reflexivity.
Defined.

Lemma getEnvAsInt_of_Itoa (env : Env) key d n :
  - 2 ^ 63 <= n < 2 ^ 63 →
  env !! key = Some (Strconv.Itoa n) → getEnvAsInt env key d = n.
Proof.
  intros Hrange Hkey. unfold getEnvAsInt.
  replace (Getenv env key) with (Strconv.Itoa n)
    by (unfold Getenv; now rewrite Hkey).
  cbv zeta.
  destruct (String.eqb_spec (Strconv.Itoa n) "") as [Hempty | _];
    [now destruct (Itoa_not_empty n) |].
  cbn [negb]. now rewrite Atoi_Itoa.
Qed.

(** X18: the preflight cache age goes from the environment to the wire:
    when CORS_MAX_AGE holds the decimal text of a 64-bit integer [n], every
    response gets Access-Control-Max-Age with that same text if [n] is
    positive and no such header otherwise; when the variable is not set the
    header is "300". *)
Theorem max_age_from_environment (env : Env) w r (n : Z) :
  - 2 ^ 63 <= n < 2 ^ 63 →
  (env !! "CORS_MAX_AGE" = Some (Strconv.Itoa n) →
   emitted_when (0 < n) (header w)
                (header (Middleware.setHeaders (NewConfig_CORSConfig env) w r))
                ACMA (Strconv.Itoa n))
  ∧ (env !! "CORS_MAX_AGE" = None →
     header (Middleware.setHeaders (NewConfig_CORSConfig env) w r) !! ACMA
     = Some ["300"]).
Proof.
  intros Hrange. split.
  - intros Hkey.
    pose proof (cors_configured_headers (NewConfig_CORSConfig env) w r)
      as (_ & _ & _ & _ & Hage).
    cbv zeta in Hage. cbn [MaxAge NewConfig_CORSConfig] in Hage.
    now rewrite (getEnvAsInt_of_Itoa env _ 300 n Hrange Hkey) in Hage.
  - intros Hkey. rewrite setHeaders_ACMA. cbn [MaxAge NewConfig_CORSConfig].
    unfold getEnvAsInt, Getenv. rewrite Hkey. reflexivity.
Qed.

Lemma max_age_from_environment_witness :
  header (Middleware.setHeaders
            (NewConfig_CORSConfig {[ "CORS_MAX_AGE" := "86400" ]})
            NewRecorder health_request) !! ACMA
  = Some ["86400"].
Proof.
  destruct (max_age_from_environment {[ "CORS_MAX_AGE" := "86400" ]}
              NewRecorder health_request 86400) as [Hset _]; [lia |].
  apply Hset; [reflexivity | lia].
Defined.

Lemma Split_free (x : string) (sep : ascii) :
  has_byte sep x = false → GoStrings.Split x sep = [x].
Proof.
  induction x as [|c x IH]; cbn; [reflexivity |].
  intros Hfree. apply orb_false_iff in Hfree as [Hc Hx].
  rewrite Hc, (IH Hx). reflexivity.
Qed.

Lemma Split_app (x rest : string) (sep : ascii) :
  has_byte sep x = false →
  GoStrings.Split (x +:+ String sep rest) sep = x :: GoStrings.Split rest sep.
Proof.
  induction x as [|c x IH]; intros Hfree.
  - change ("" +:+ String sep rest) with (String sep rest).
    cbn [GoStrings.Split]. now rewrite Ascii.eqb_refl.
  - cbn in Hfree. apply orb_false_iff in Hfree as [Hc Hx].
    change (String c x +:+ String sep rest) with (String c (x +:+ String sep rest)).
    cbn [GoStrings.Split]. rewrite Hc, (IH Hx). reflexivity.
Qed.

Lemma Split_Join (l : list string) :
  l ≠ [] → Forall (λ x, has_byte "," x = false) l →
  GoStrings.Split (GoStrings.Join l ",") "," = l.
Proof.
  induction l as [|x l IH]; [congruence |]. intros _ Hfree.
  apply Forall_cons in Hfree as [Hx Hl].
  destruct l as [|y l].
  - cbn. now apply Split_free.
  - change (GoStrings.Join (x :: y :: l) ",")
      with (x +:+ String "," (GoStrings.Join (y :: l) ",")).
    rewrite Split_app by assumption. f_equal. now apply IH.
Qed.

Lemma Join_not_empty (l : list string) (sep : string) :
  l ≠ [] → Forall (λ x, x ≠ "") l → GoStrings.Join l sep ≠ "".
Proof.
  destruct l as [|x l]; [congruence |]. intros _ Hl.
  apply Forall_cons in Hl as [Hx _].
  destruct x as [|c x]; [congruence |]. destruct l; cbn; discriminate.
Qed.

(** X19: [getEnvAsSlice] reads a comma-separated list back: from the
    variable set to the entries of a non-empty list joined by commas it
    returns that list, provided no entry is empty, holds a comma or has
    white space around it.  Whatever the variable holds, the result is
    either the default or a non-empty list without empty entries. *)
Theorem getEnvAsSlice_reads_list (env : Env) (key : string) (d : list string) :
  (getEnvAsSlice env key d = d
   ∨ (getEnvAsSlice env key d ≠ []
      ∧ Forall (λ x, x ≠ "") (getEnvAsSlice env key d)))
  ∧ ∀ l, l ≠ [] → Forall clean_entry l →
         getEnvAsSlice (<[key := GoStrings.Join l ","]> env) key d = l.
Proof.
  split.
  - unfold getEnvAsSlice. destruct (negb _); [| now left].
    match goal with
    | |- context [filter ?P ?xs] => set (result := filter P xs)
    end.
    destruct (Nat.ltb_spec 0 (length result)) as [Hlen | _]; [right | now left].
    split; [intros Hnil; rewrite Hnil in Hlen; cbn in Hlen; lia |].
    apply Forall_forall. intros x Hx. now apply list_elem_of_filter in Hx as [Hx _].
  - intros l Hne Hclean. unfold getEnvAsSlice. rewrite Getenv_insert.
    assert (Forall (λ x, x ≠ "") l) as Hfull
      by (eapply Forall_impl; [exact Hclean | now intros x (? & _)]).
    assert (Forall (λ x, has_byte "," x = false) l) as Hfree
      by (eapply Forall_impl; [exact Hclean | now intros x (_ & ? & _)]).
    destruct (String.eqb_spec (GoStrings.Join l ",") "") as [Hempty | _];
      [now destruct (Join_not_empty l "," Hne Hfull) |].
    cbn [negb]. rewrite (Split_Join l Hne Hfree).
    assert (map GoStrings.TrimSpace l = l) as ->.
    { clear -Hclean. induction Hclean as [|x l (_ & _ & Hx) _ IH]; cbn;
        [reflexivity | now rewrite Hx, IH]. }
    assert (filter (λ trimmed : string, trimmed ≠ "") l = l) as ->.
    { clear -Hfull. induction Hfull as [|x l Hx _ IH]; [reflexivity |].
      rewrite filter_cons_True by assumption. now rewrite IH. }
    destruct l; [congruence | reflexivity].
Qed.

Lemma getEnvAsSlice_reads_list_witness :
  getEnvAsSlice {[ "CORS_ALLOWED_ORIGINS" := "https://a.test,*.b.test" ]}
                "CORS_ALLOWED_ORIGINS" ["*"]
  = ["https://a.test"; "*.b.test"].
Proof.
  destruct (getEnvAsSlice_reads_list ∅ "CORS_ALLOWED_ORIGINS" ["*"]) as [_ Hread].
  apply (Hread ["https://a.test"; "*.b.test"]); [discriminate |].
  repeat constructor; discriminate.
Defined.

Example allowed_origins_from_environment :
  getEnvAsSlice {[ "CORS_ALLOWED_ORIGINS" := "https://a.test, https://b.test ,, " ]}
                "CORS_ALLOWED_ORIGINS" ["*"]
  = ["https://a.test"; "https://b.test"]
  ∧ getEnvAsSlice {[ "CORS_ALLOWED_ORIGINS" := " , ," ]} "CORS_ALLOWED_ORIGINS" ["*"]
    = ["*"].
Proof. vm_compute. split; reflexivity. Qed.

(** X20: a variable that is set to the empty string counts as set for
    [getEnv], which returns the empty string, and as unset for
    [getEnvAsInt], [getEnvAsBool] and [getEnvAsSlice], which return their
    default. *)
Theorem empty_variable (env : Env) (key fallback : string)
    (n : Z) (b : bool) (l : list string) :
  env !! key = Some "" →
  getEnv env key fallback = ""
  ∧ getEnvAsInt env key n = n
  ∧ getEnvAsBool env key b = b
  ∧ getEnvAsSlice env key l = l.
Proof.
  intros Hkey.
  unfold getEnv, getEnvAsInt, getEnvAsBool, getEnvAsSlice, Getenv.
  rewrite Hkey. repeat split.
Qed.

Lemma empty_variable_witness :
  getEnv {[ "PORT" := "" ]} "PORT" ":8080" = ""
  ∧ getEnvAsInt {[ "PORT" := "" ]} "PORT" 5432 = 5432
  ∧ getEnvAsBool {[ "PORT" := "" ]} "PORT" false = false
  ∧ getEnvAsSlice {[ "PORT" := "" ]} "PORT" ["*"] = ["*"].
Proof. apply (empty_variable {[ "PORT" := "" ]} "PORT"). reflexivity. Defined.

Lemma getEnvAsSlice_blank (env : Env) key d :
  blank_list (Getenv env key) → getEnvAsSlice env key d = d.
Proof.
  unfold blank_list, getEnvAsSlice. cbv zeta. intros Hblank.
  destruct (negb _); [| reflexivity].
  assert (filter (λ trimmed : string, trimmed ≠ "")
                 (map GoStrings.TrimSpace (GoStrings.Split (Getenv env key) ","))
          = []) as ->; [| reflexivity].
  induction Hblank as [|part parts Hpart _ IH]; [reflexivity |].
  cbn [map]. rewrite filter_cons_False by (rewrite Hpart; auto). exact IH.
Qed.

Lemma getEnvAsBool_true (env : Env) key d :
  Getenv env key ∈ true_spellings → getEnvAsBool env key d = true.
Proof.
  unfold getEnvAsBool, true_spellings. cbv zeta. intros Hin.
  repeat (apply elem_of_cons in Hin as [-> | Hin]; [reflexivity |]).
  inversion Hin.
Qed.

(** X21: an allow-list without entries opens the service to every origin:
    when CORS_ALLOWED_ORIGINS is unset, empty, or holds only commas and
    white space, the configuration falls back on the wildcard, so every
    request gets Access-Control-Allow-Origin, with its own Origin when it
    has one and "*" otherwise; if CORS_ALLOW_CREDENTIALS is set to a true
    spelling, Access-Control-Allow-Credentials "true" goes with it. *)
Theorem blank_allow_list_allows_all (env : Env) w r :
  blank_list (Getenv env "CORS_ALLOWED_ORIGINS") →
  let origin := Http.Get (req_Header r) "Origin" in
  let h := header (Middleware.setHeaders (NewConfig_CORSConfig env) w r) in
  AllowedOrigins (NewConfig_CORSConfig env) = ["*"]
  ∧ h !! ACAO = Some [if String.eqb origin "" then "*" else origin]
  ∧ (Getenv env "CORS_ALLOW_CREDENTIALS" ∈ true_spellings →
     h !! ACAC = Some ["true"]).
Proof.
  intros Hblank origin h.
  assert (AllowedOrigins (NewConfig_CORSConfig env) = ["*"]) as Hallowed
    by (cbn [AllowedOrigins NewConfig_CORSConfig]; now apply getEnvAsSlice_blank).
  split; [exact Hallowed |]. split.
  - subst h. rewrite setHeaders_ACAO. cbv zeta. rewrite Hallowed.
    fold origin. unfold Middleware.isOriginAllowed.
    destruct (String.eqb origin ""); reflexivity.
  - intros Htrue. subst h. rewrite setHeaders_ACAC.
    cbn [AllowCredentials NewConfig_CORSConfig].
    now rewrite getEnvAsBool_true.
Qed.

Lemma blank_allow_list_allows_all_witness :
  header (Middleware.setHeaders
            (NewConfig_CORSConfig {[ "CORS_ALLOWED_ORIGINS" := " , ";
                                     "CORS_ALLOW_CREDENTIALS" := "true" ]})
            NewRecorder foreign_request) !! ACAO
  = Some ["https://elsewhere.test"]
  ∧ header (Middleware.setHeaders
              (NewConfig_CORSConfig {[ "CORS_ALLOWED_ORIGINS" := " , ";
                                       "CORS_ALLOW_CREDENTIALS" := "true" ]})
              NewRecorder foreign_request) !! ACAC
    = Some ["true"].
Proof.
  destruct (blank_allow_list_allows_all
              {[ "CORS_ALLOWED_ORIGINS" := " , "; "CORS_ALLOW_CREDENTIALS" := "true" ]}
              NewRecorder foreign_request)
    as (_ & Horigin & Hcredentials).
  - repeat constructor.
  - split; [exact Horigin |]. apply Hcredentials.
    do 4 right. left.
Defined.

End ConfigProperties.
